(** * scrapers.py: the news scrapers of six united-front department sites

    A shallow embedding of [src/scrapers.py] and the properties its
    specification states about it.

    Python values are modelled as follows.
    - [str] is a list of Unicode code points ([N]); [len] counts code points,
      comparison is lexicographic on code points.
    - The news dictionaries with the four keys source, title, date and url are
      the record [NewsRecord].
    - Library calls that can raise return a [result]; [try ... except
      Exception] is [try_except].
    - What the libraries compute on arbitrary input (the network, the HTML
      parser, urljoin, json.loads) is a field of the record [Env]; every
      general theorem holds for every [Env]. *)

From Stdlib Require Import List NArith ZArith Bool Ascii Lia.
From Stdlib Require Import Permutation Sorted.
From Stdlib Require String.
Import ListNotations.
Import String.StringSyntax.

Set Warnings "-register-all".

Local Open Scope string_scope.
Local Open Scope N_scope.

(** ** Python strings *)

Definition char := N.
Definition str := list char.

(** Decoding of the UTF-8 bytes of a literal of this file into code points, so
    that the literals of the Python source can be written as they stand. *)
Fixpoint utf8_decode (bs : list N) : str :=
  match bs with
  | [] => []
  | b0 :: r0 =>
      if b0 <? 128 then b0 :: utf8_decode r0
      else match r0 with
      | [] => [b0]
      | b1 :: r1 =>
          if b0 <? 224
          then (N.land b0 31 * 64 + N.land b1 63) :: utf8_decode r1
          else match r1 with
          | [] => [b0; b1]
          | b2 :: r2 =>
              if b0 <? 240
              then (N.land b0 15 * 4096 + N.land b1 63 * 64 + N.land b2 63)
                     :: utf8_decode r2
              else match r2 with
              | [] => [b0; b1; b2]
              | b3 :: r3 =>
                  (N.land b0 7 * 262144 + N.land b1 63 * 4096
                   + N.land b2 63 * 64 + N.land b3 63) :: utf8_decode r3
              end
          end
      end
  end.

Definition py (s : String.string) : str :=
  utf8_decode (map N_of_ascii (String.list_ascii_of_string s)).

(** The same with every apostrophe read as a double quote, for literals with
    quotation marks in them (JSON text). *)
Definition pyq (s : String.string) : str :=
  map (fun c => if c =? 39 then 34 else c) (py s).

Fixpoint str_eqb (a b : str) : bool :=
  match a, b with
  | [], [] => true
  | x :: a', y :: b' => (x =? y) && str_eqb a' b'
  | _, _ => false
  end.

(** [bool(s)]: a string is true when it is not empty. *)
Definition truthy (s : str) : bool :=
  match s with [] => false | _ :: _ => true end.

(** [s.startswith(p)] *)
Fixpoint startswith (p s : str) : bool :=
  match p, s with
  | [], _ => true
  | x :: p', y :: s' => (x =? y) && startswith p' s'
  | _ :: _, [] => false
  end.

(** [sub in s] *)
Fixpoint contains (sub s : str) : bool :=
  startswith sub s
  || match s with
     | [] => false
     | _ :: s' => contains sub s'
     end.

(** [s in l] for a list of strings *)
Definition str_in (s : str) (l : list str) : bool := existsb (str_eqb s) l.

(** [s.replace(old, new)] for one-character [old] and [new]. *)
Definition replace_char (old new : char) (s : str) : str :=
  map (fun c => if c =? old then new else c) s.

(** [str.isspace] of one character, which is also what [\s] matches in a
    [str] pattern. *)
Definition isspace (c : char) : bool :=
  ((9 <=? c) && (c <=? 13)) || ((28 <=? c) && (c <=? 32))
  || (c =? 133) || (c =? 160) || (c =? 5760)
  || ((8192 <=? c) && (c <=? 8202))
  || (c =? 8232) || (c =? 8233) || (c =? 8239) || (c =? 8287) || (c =? 12288).

(** First code point of each run of ten decimal digits (category Nd) of the
    Unicode database 14.0 shipped with Python 3.11; the mathematical digits
    at 0x1D7CE are five runs. *)
Definition decimal_runs : list N :=
  [ 0x30; 0x660; 0x6f0; 0x7c0; 0x966; 0x9e6; 0xa66; 0xae6; 0xb66; 0xbe6;
    0xc66; 0xce6; 0xd66; 0xde6; 0xe50; 0xed0; 0xf20; 0x1040; 0x1090; 0x17e0;
    0x1810; 0x1946; 0x19d0; 0x1a80; 0x1a90; 0x1b50; 0x1bb0; 0x1c40; 0x1c50;
    0xa620; 0xa8d0; 0xa900; 0xa9d0; 0xa9f0; 0xaa50; 0xabf0; 0xff10; 0x104a0;
    0x10d30; 0x11066; 0x110f0; 0x11136; 0x111d0; 0x112f0; 0x11450; 0x114d0;
    0x11650; 0x116c0; 0x11730; 0x118e0; 0x11950; 0x11c50; 0x11d50; 0x11da0;
    0x16a60; 0x16ac0; 0x16b50;
    0x1d7ce; 0x1d7d8; 0x1d7e2; 0x1d7ec; 0x1d7f6;
    0x1e140; 0x1e2f0; 0x1e950; 0x1fbf0 ].

(** What [\d] matches in a [str] pattern ([str.isdecimal]). *)
Definition isdecimal (c : char) : bool :=
  existsb (fun z => (z <=? c) && (c <? z + 10)) decimal_runs.

Fixpoint lstrip (s : str) : str :=
  match s with
  | [] => []
  | c :: s' => if isspace c then lstrip s' else s
  end.

Definition rstrip (s : str) : str := rev (lstrip (rev s)).

(** [s.strip()] *)
Definition strip (s : str) : str := rstrip (lstrip s).

(** [a < b] on strings *)
Fixpoint str_ltb (a b : str) : bool :=
  match a, b with
  | _, [] => false
  | [], _ :: _ => true
  | x :: a', y :: b' => (x <? y) || ((x =? y) && str_ltb a' b')
  end.

(** [a <= b] on strings *)
Definition str_leb (a b : str) : bool := negb (str_ltb b a).

(** ** Regular expressions

    The fragment of [re] the scrapers use: literals, character classes,
    greedy bounded or unbounded repetition of a class, sequence, alternation
    and one capturing group.  The matcher backtracks in the order of the [re]
    module: a repetition first takes as many characters as it can, an
    alternation tries its left branch first. *)

Inductive regex : Type :=
| Lit (s : str)
| Cls (p : char -> bool)
| Rep (p : char -> bool) (lo : nat) (hi : option nat)
| Cat (r1 r2 : regex)
| Alt (r1 r2 : regex)
| Grp (r : regex).

Fixpoint lit (p s : str) : option str :=
  match p, s with
  | [], _ => Some s
  | x :: p', y :: s' => if x =? y then lit p' s' else None
  | _ :: _, [] => None
  end.

Definition or_else {A : Type} (a b : option A) : option A :=
  match a with Some v => Some v | None => b end.

(** [p{lo,hi}] followed by the continuation [k]; [hi = None] is no bound. *)
Fixpoint rep {A : Type} (p : char -> bool) (lo : nat) (hi : option nat)
    (s : str) (k : str -> option A) {struct s} : option A :=
  let stop := match lo with O => k s | S _ => None end in
  match hi with
  | Some O => stop
  | _ =>
      match s with
      | c :: s' =>
          if p c
          then or_else (rep p (Nat.pred lo) (option_map Nat.pred hi) s' k) stop
          else stop
      | [] => stop
      end
  end.

(** [re_match r s g k]: match [r] at the start of [s], then go on with [k] on
    the text of group 1 and on what is left of [s]. *)
Fixpoint re_match {A : Type} (r : regex) (s : str) (g : option str)
    (k : option str -> str -> option A) : option A :=
  match r with
  | Lit p => match lit p s with Some s' => k g s' | None => None end
  | Cls p =>
      match s with
      | c :: s' => if p c then k g s' else None
      | [] => None
      end
  | Rep p lo hi => rep p lo hi s (k g)
  | Cat r1 r2 => re_match r1 s g (fun g1 s1 => re_match r2 s1 g1 k)
  | Alt r1 r2 => or_else (re_match r1 s g k) (re_match r2 s g k)
  | Grp r1 =>
      re_match r1 s g
        (fun _ s1 => k (Some (firstn (length s - length s1) s)) s1)
  end.

(** A match at the start of [s]: the text of group 1 and the rest of [s]. *)
Definition match_at (r : regex) (s : str) : option (option str * str) :=
  re_match r s None (fun g rest => Some (g, rest)).

(** [re.search(r, s)]: the leftmost match. *)
Fixpoint re_search (r : regex) (s : str) : option (option str * str) :=
  or_else (match_at r s)
    match s with
    | [] => None
    | _ :: s' => re_search r s'
    end.

(** [m.group(1)] of the result of a search, [None] when nothing matched. *)
Definition search_group1 (r : regex) (s : str) : option str :=
  match re_search r s with
  | Some (Some g, _) => Some g
  | _ => None
  end.

(** [re.sub(r"^...", "", s)] for a pattern that matches no empty string: the
    pattern can only match at the start of [s]. *)
Definition re_sub_start (r : regex) (s : str) : str :=
  match match_at r s with
  | Some (_, rest) => rest
  | None => s
  end.

Definition is_sep2 (c : char) : bool := (c =? 45) || (c =? 47).
Definition is_sep3 (c : char) : bool := (c =? 45) || (c =? 47) || (c =? 46).

(** [\d{4}S\d{1,2}S\d{1,2}] for a separator class [S]. *)
Definition date_body (sep : char -> bool) : regex :=
  Cat (Rep isdecimal 4 (Some 4%nat))
   (Cat (Cls sep)
     (Cat (Rep isdecimal 1 (Some 2%nat))
       (Cat (Cls sep) (Rep isdecimal 1 (Some 2%nat))))).

(** [r"(\d{4}[-/]\d{1,2}[-/]\d{1,2})"] *)
Definition re_date2 : regex := Grp (date_body is_sep2).

(** [r"(\d{4}[-/\.]\d{1,2}[-/\.]\d{1,2})"] *)
Definition re_date3 : regex := Grp (date_body is_sep3).

(** [r"^\d{4}[-/\.]\d{1,2}[-/\.]\d{1,2}\s*"], the anchor left to
    [re_sub_start] *)
Definition re_date3_prefix : regex :=
  Cat (date_body is_sep3) (Rep isspace 0 None).

(** [re.compile(r"date|time|Article_PublishDate")] *)
Definition re_date_class : regex :=
  Alt (Lit (py "date")) (Alt (Lit (py "time")) (Lit (py "Article_PublishDate"))).

(** [r'var\s+gzdtList\s*=\s*(\[.*\])'] with [re.DOTALL] *)
Definition re_gzdt : regex :=
  Cat (Lit (py "var"))
   (Cat (Rep isspace 1 None)
     (Cat (Lit (py "gzdtList"))
       (Cat (Rep isspace 0 None)
         (Cat (Lit (py "="))
           (Cat (Rep isspace 0 None)
             (Grp (Cat (Lit (py "["))
                    (Cat (Rep (fun _ => true) 0 None) (Lit (py "]")))))))))).

(** ** The document tree of BeautifulSoup

    A tag with its name, its attributes as the parser stored them and its
    children, or a string of text.  Comments and the like are no part of
    [get_text] and are left out. *)

Inductive node : Type :=
| Text (s : str)
| Elem (tag : str) (attrs : list (str * str)) (children : list node).

Fixpoint assoc {V : Type} (key : str) (kv : list (str * V)) : option V :=
  match kv with
  | [] => None
  | (k, v) :: kv' => if str_eqb key k then Some v else assoc key kv'
  end.

(** [tag.get(name)] *)
Definition attr_get (name : str) (n : node) : option str :=
  match n with
  | Text _ => None
  | Elem _ attrs _ => assoc name attrs
  end.

Definition is_tag (name : str) (n : node) : bool :=
  match n with
  | Text _ => false
  | Elem tag _ _ => str_eqb tag name
  end.

(** Everything below [n], in document order. *)
Fixpoint descendants (n : node) : list node :=
  match n with
  | Text _ => []
  | Elem _ _ cs => flat_map (fun c => c :: descendants c) cs
  end.

(** The same, each node with its parent ([find_parent()]). *)
Fixpoint descendants_with_parent (n : node) : list (node * node) :=
  match n with
  | Text _ => []
  | Elem _ _ cs => flat_map (fun c => (c, n) :: descendants_with_parent c) cs
  end.

(** [tag.get_text()] *)
Fixpoint get_text (n : node) : str :=
  match n with
  | Text s => s
  | Elem _ _ cs => flat_map get_text cs
  end.

(** [tag.get_text(strip=True)]: every string stripped, the empty ones left
    out, joined with nothing between them. *)
Fixpoint get_text_strip (n : node) : str :=
  match n with
  | Text s => strip s
  | Elem _ _ cs => flat_map get_text_strip cs
  end.

(** [tag.find_all(name)] and [tag.find(name)] *)
Definition find_all (name : str) (n : node) : list node :=
  filter (is_tag name) (descendants n).

Definition find (name : str) (n : node) : option node :=
  hd_error (find_all name n).

(** The values of a [class] attribute: the runs of non-space characters. *)
Fixpoint split_ws_from (cur : str) (s : str) : list str :=
  match s with
  | [] => if truthy cur then [cur] else []
  | c :: s' =>
      if isspace c
      then (if truthy cur then [cur] else []) ++ split_ws_from [] s'
      else split_ws_from (cur ++ [c]) s'
  end.

Definition split_ws (s : str) : list str := split_ws_from [] s.

Definition classes (n : node) : list str :=
  match attr_get (py "class") n with
  | Some v => split_ws v
  | None => []
  end.

Fixpoint join_space (l : list str) : str :=
  match l with
  | [] => []
  | [a] => a
  | a :: l' => a ++ 32 :: join_space l'
  end.

Definition searches (r : regex) (s : str) : bool :=
  match re_search r s with Some _ => true | None => false end.

(** [class_=re.compile(...)]: the pattern is searched in each class and in
    the classes joined by a space; a tag without a class does not match. *)
Definition class_matches (r : regex) (n : node) : bool :=
  match classes n with
  | [] => false
  | cl => existsb (searches r) cl || searches r (join_space cl)
  end.

(** [item.find("span", class_=re.compile(r"date|time|Article_PublishDate"))] *)
Definition find_date_span (item : node) : option node :=
  hd_error
    (filter (fun n => is_tag (py "span") n && class_matches re_date_class n)
       (descendants item)).

(** One of the three list containers of the selector. *)
Definition is_news_container (n : node) : bool :=
  (is_tag (py "ul") n && str_in (py "news_list") (classes n))
  || (is_tag (py "ul") n && str_in (py "wp_article_list") (classes n))
  || (is_tag (py "div") n && str_in (py "news_list") (classes n)).

(** The [li] tags at or below [n] that lie in a news container; [inside]
    says that an ancestor of [n] is one. *)
Fixpoint select_li (inside : bool) (n : node) : list node :=
  match n with
  | Text _ => []
  | Elem _ _ cs =>
      (if inside && is_tag (py "li") n then [n] else [])
      ++ flat_map (select_li (inside || is_news_container n)) cs
  end.

(** [soup.select("ul.news_list li, ul.wp_article_list li, div.news_list li")] *)
Definition select_news_items (soup : node) : list node := select_li false soup.

(** ** JSON values, as [json.loads] returns them *)

Inductive json : Type :=
| JNull
| JBool (b : bool)
| JNum (literal : str)
| JStr (s : str)
| JArr (items : list json)
| JObj (members : list (str * json)).

(** ** Exceptions *)

Definition exn := str.

Inductive result (A : Type) : Type :=
| Ok (a : A)
| Raise (e : exn).

Arguments Ok {A} a.
Arguments Raise {A} e.

Definition bind {A B : Type} (c : result A) (f : A -> result B) : result B :=
  match c with
  | Ok a => f a
  | Raise e => Raise e
  end.

(** [try: body except Exception as e: handler] *)
Definition try_except {A : Type} (body : result A) (handler : exn -> result A)
    : result A :=
  match body with
  | Ok a => Ok a
  | Raise e => handler e
  end.

Notation "x <- c ;; k" := (bind c (fun x => k))
  (at level 61, c at next level, right associativity).

(** ** The libraries and the network *)

Record Response : Type := mkResponse {
  status_code : N;
  content : list N
}.

(** What the code calls outside of itself.  [requests_get] is the network as
    it answers during one run; [response_text r enc] is [r.text] once
    [r.encoding] is [enc]. *)
Record Env : Type := mkEnv {
  requests_get : str -> result Response;
  raise_for_status : Response -> result unit;
  apparent_encoding : Response -> str;
  response_text : Response -> str -> result str;
  BeautifulSoup : str -> node;
  urljoin : str -> str -> result str;
  json_loads : str -> result json
}.

(** ** The records *)

Record NewsRecord : Type := mkNews {
  source : str;
  title : str;
  date : str;
  url : str
}.

Record Config : Type := mkConfig {
  cfg_url : str;
  cfg_base_url : str;
  cfg_parser : str
}.

Definition UNIVERSITIES : list (str * Config) :=
  [ (py "复旦大学",
     mkConfig (py "https://www.tzb.fudan.edu.cn/20423/list.htm")
              (py "https://www.tzb.fudan.edu.cn") (py "fudan"));
    (py "上海交通大学",
     mkConfig (py "https://tzb.sjtu.edu.cn/news")
              (py "https://tzb.sjtu.edu.cn") (py "sjtu"));
    (py "同济大学",
     mkConfig (py "https://tzb.tongji.edu.cn/syxw/list.htm")
              (py "https://tzb.tongji.edu.cn") (py "tongji"));
    (py "华东师范大学",
     mkConfig (py "https://tzb.ecnu.edu.cn/tzxw/list.htm")
              (py "https://tzb.ecnu.edu.cn") (py "ecnu"));
    (py "上海师范大学",
     mkConfig (py "https://tzb.shnu.edu.cn/zhyw/list.htm")
              (py "https://tzb.shnu.edu.cn") (py "shnu"));
    (py "上海市社会主义学院",
     mkConfig (py "https://www.shsy.org.cn/node933/shsy/tzll/gzdt/index.html")
              (py "https://www.shsy.org.cn") (py "shsy")) ].

(** ** [is_valid_news] *)

Definition nav_keywords : list str :=
  map py
  [ "首页"; "更多"; "详情"; "查看"; "点击"; "下载"; "登录"; "注册";
    "部门概况"; "统战团体"; "民主党派"; "参政议政"; "理论园地"; "服务指南";
    "复旦统战"; "两会专题"; "交大首页"; "智慧统战"; "中国人大网"; "中国政协网";
    "中央统战部"; "上海统一战线"; "民革"; "民盟"; "民建"; "民进"; "农工党";
    "致公党"; "九三学社"; "台盟"; "侨联"; "欧美同学会"; "知联会"; "台联"; "民族联" ].

Definition is_valid_news (title url date_text : str) : bool :=
  if (length title <? 6)%nat then false
  else if str_in title nav_keywords then false
  else if existsb
            (fun kw =>
               str_eqb title kw || ((length title <? 10)%nat && contains kw title))
            nav_keywords
  then false
  else if contains (py "list.htm") url && negb (contains (py "/c") url) then false
  else if negb (truthy date_text) then false
  else true.

(** ** The extractors *)

(** The body of a [for] loop that appends at most one record per item:
    [None] is an item passed over. *)
Fixpoint collect {A B : Type} (f : A -> option B) (l : list A) : list B :=
  match l with
  | [] => []
  | x :: l' =>
      match f x with
      | Some y => y :: collect f l'
      | None => collect f l'
      end
  end.

(** One pass of the loop of [parse_fudan], [parse_tongji], [parse_ecnu] and
    [parse_shnu]; the four loops differ in the source name only.  A [urljoin]
    that raises is caught by the [except] of the loop, which goes on with
    the next item. *)
Definition list_item (E : Env) (source_name base_url : str) (item : node)
    : option NewsRecord :=
  match find (py "a") item with
  | None => None
  | Some link =>
      match attr_get (py "href") link with
      | None => None
      | Some href =>
          if negb (truthy href) then None
          else
            let title := get_text_strip link in
            match urljoin E base_url href with
            | Raise _ => None
            | Ok url =>
                let date_text :=
                  match find_date_span item with
                  | Some date_span => get_text_strip date_span
                  | None =>
                      match search_group1 re_date2 (get_text item) with
                      | Some d => replace_char 47 45 d
                      | None => []
                      end
                  end in
                if is_valid_news title url date_text
                then Some (mkNews source_name title date_text url)
                else None
            end
      end
  end.

(** The items the four list sites loop over: the selector's, or when it
    finds none, every [li] with a date in its text. *)
Definition list_news_items (soup : node) : list node :=
  match select_news_items soup with
  | [] =>
      filter (fun li => searches (date_body is_sep2) (get_text li))
        (find_all (py "li") soup)
  | news_items => news_items
  end.

Definition parse_list_site (source_name : str) (E : Env) (html base_url : str)
    : list NewsRecord :=
  let soup := BeautifulSoup E html in
  collect (list_item E source_name base_url) (list_news_items soup).

Definition parse_fudan : Env -> str -> str -> list NewsRecord :=
  parse_list_site (py "复旦大学").

Definition parse_tongji : Env -> str -> str -> list NewsRecord :=
  parse_list_site (py "同济大学").

Definition parse_ecnu : Env -> str -> str -> list NewsRecord :=
  parse_list_site (py "华东师范大学").

Definition parse_shnu : Env -> str -> str -> list NewsRecord :=
  parse_list_site (py "上海师范大学").

(** [s.replace(".", "-").replace("/", "-")] *)
Definition dashes (s : str) : str := replace_char 47 45 (replace_char 46 45 s).

(** Title and date of an anchor of [parse_sjtu], before the title is
    stripped: from the anchor's text when a date is found in it, else the
    date from the text of the parent. *)
Definition sjtu_title_date (link parent : node) : str * str :=
  let title := get_text_strip link in
  match search_group1 re_date3 title with
  | Some d => (re_sub_start re_date3_prefix title, dashes d)
  | None =>
      (title,
       match search_group1 re_date3 (get_text parent) with
       | Some d => dashes d
       | None => []
       end)
  end.

(** One pass of the loop of [parse_sjtu] on an anchor and its parent. *)
Definition sjtu_item (E : Env) (base_url : str) (lp : node * node)
    : option NewsRecord :=
  let (link, parent) := lp in
  let href := match attr_get (py "href") link with Some h => h | None => [] end in
  match urljoin E base_url href with
  | Raise _ => None
  | Ok url =>
      let (title0, date_text) := sjtu_title_date link parent in
      let title := strip title0 in
      if truthy title && (6 <=? length title)%nat && truthy date_text
      then Some (mkNews (py "上海交通大学") title date_text url)
      else None
  end.

(** [soup.find_all("a", href=lambda x: x and "/post/" in x)], each anchor
    with its parent.  Every tag below the soup has a parent, so the test
    [if parent] of the source always passes. *)
Definition sjtu_links (soup : node) : list (node * node) :=
  filter
    (fun lp =>
       is_tag (py "a") (fst lp)
       && match attr_get (py "href") (fst lp) with
          | Some x => truthy x && contains (py "/post/") x
          | None => false
          end)
    (descendants_with_parent soup).

Definition parse_sjtu (E : Env) (html base_url : str) : list NewsRecord :=
  let soup := BeautifulSoup E html in
  collect (sjtu_item E base_url) (sjtu_links soup).

Definition shsy_root : str := py "https://www.shsy.org.cn/".

(** [item.get(key, "").strip()]; [None] when it raises: the item is no
    dictionary, or the value is no string. *)
Definition shsy_field (key : str) (item : json) : option str :=
  match item with
  | JObj members =>
      match assoc key members with
      | None => Some (strip [])
      | Some (JStr s) => Some (strip s)
      | Some _ => None
      end
  | _ => None
  end.

(** The url of a feed entry from its stripped [messageurl]; [None] is the
    [continue] of the last branch, or a [urljoin] that raised. *)
Definition shsy_url (E : Env) (msg_url : str) : option str :=
  if startswith (py "http") msg_url then Some msg_url
  else if startswith (py "detailpage/") msg_url then Some (shsy_root ++ msg_url)
  else if truthy msg_url then
    match urljoin E shsy_root msg_url with
    | Ok u => Some u
    | Raise _ => None
    end
  else None.

(** One pass of the loop of [parse_shsy]. *)
Definition shsy_item (E : Env) (item : json) : option NewsRecord :=
  match shsy_field (py "messagetitle") item with
  | None => None
  | Some title =>
      match shsy_field (py "messagedate") item with
      | None => None
      | Some date_text =>
          match shsy_field (py "messageurl") item with
          | None => None
          | Some msg_url =>
              match shsy_url E msg_url with
              | None => None
              | Some url =>
                  if truthy title && (2 <=? length title)%nat && truthy date_text
                  then Some (mkNews (py "上海市社会主义学院") title date_text url)
                  else None
              end
          end
      end
  end.

Definition shsy_json_url : str := py "https://www.shsy.org.cn/json/gzdt.js".

(** [parse_shsy] reads the feed itself and takes nothing from [html]; every
    exception ends in the empty list.  Only a JSON array has entries to loop
    over: the members of anything else [json.loads] could return are no
    dictionaries. *)
Definition parse_shsy (E : Env) (html base_url : str) : list NewsRecord :=
  match requests_get E shsy_json_url with
  | Raise _ => []
  | Ok response =>
      match response_text E response (py "utf-8") with
      | Raise _ => []
      | Ok js_content =>
          match search_group1 re_gzdt js_content with
          | None => []
          | Some json_str =>
              match json_loads E json_str with
              | Ok (JArr data) => collect (shsy_item E) data
              | _ => []
              end
          end
      end
  end.

Definition parser : Type := Env -> str -> str -> list NewsRecord.

Definition PARSERS : list (str * parser) :=
  [ (py "fudan", parse_fudan);
    (py "sjtu", parse_sjtu);
    (py "tongji", parse_tongji);
    (py "ecnu", parse_ecnu);
    (py "shnu", parse_shnu);
    (py "shsy", parse_shsy) ].

(** ** Fetching and aggregation *)

(** [fetch_page]; the [print] of the handler is not modelled. *)
Definition fetch_page (E : Env) (url : str) : result (option str) :=
  try_except
    (response <- requests_get E url ;;
     _ <- raise_for_status E response ;;
     text <- response_text E response (apparent_encoding E response) ;;
     Ok (Some text))
    (fun _ => Ok None).

(** [scrape_university]: the name, the records and the error message. *)
Definition scrape_university (E : Env) (name : str) (config : Config)
    : result (str * list NewsRecord * option str) :=
  try_except
    (html <- fetch_page E (cfg_url config) ;;
     match html with
     | None => Ok (name, [], Some (name ++ py "网站访问超时或失败"))
     | Some html =>
         match assoc (cfg_parser config) PARSERS with
         | None => Ok (name, [], Some (name ++ py "解析器未找到"))
         | Some parse =>
             let news := parse E html (cfg_base_url config) in
             Ok (name, news, None)
         end
     end)
    (fun e => Ok (name, [], Some (name ++ py "爬取异常: " ++ e))).

(** The sort key of [scrape_all_universities]. *)
Definition parse_date (item : NewsRecord) : str :=
  let date_str := date item in
  if truthy date_str then replace_char 47 45 date_str
  else py "0000-00-00".

(** [l.sort(key=key, reverse=True)]: the stable sort by decreasing key.
    Equal keys stay in the order they had. *)
Fixpoint insert_desc {A : Type} (key : A -> str) (x : A) (l : list A) : list A :=
  match l with
  | [] => [x]
  | y :: l' =>
      if str_ltb (key x) (key y) then y :: insert_desc key x l'
      else x :: l
  end.

Fixpoint sort_desc {A : Type} (key : A -> str) (l : list A) : list A :=
  match l with
  | [] => []
  | x :: l' => insert_desc key x (sort_desc key l')
  end.

(** One pass of the loop over [as_completed(futures)]. *)
Definition collect_result (acc : list NewsRecord * list str)
    (r : str * list NewsRecord * option str) : list NewsRecord * list str :=
  let '(all_news, errors) := acc in
  let '(_, news, error) := r in
  (all_news ++ news,
   match error with
   | Some e => if truthy e then errors ++ [e] else errors
   | None => errors
   end).

(** The loop over [as_completed(futures)]: [future.result()] of each future in
    the order of completion. *)
Fixpoint gather (E : Env) (completed : list (str * Config))
    (acc : list NewsRecord * list str) : result (list NewsRecord * list str) :=
  match completed with
  | [] => Ok acc
  | (name, config) :: rest =>
      r <- scrape_university E name config ;;
      gather E rest (collect_result acc r)
  end.

(** [scrape_all_universities].  The futures share nothing and the network is
    fixed by [E], so all the thread pool decides is the order in which the
    results come in: [completed] is [UNIVERSITIES.items()] in the order of
    completion. *)
Definition scrape_all_universities (E : Env) (completed : list (str * Config))
    : result (list NewsRecord * list str) :=
  acc <- gather E completed ([], []) ;;
  Ok (sort_desc parse_date (fst acc), snd acc).

(** ** Notions used to state the properties *)

(** [sub] is a part of [s]. *)
Definition occurs_in (sub s : str) : Prop :=
  exists pre post, s = pre ++ sub ++ post.

(** What the extractor of a site returns on the page fetched for it; nothing
    when the page is not fetched or the site has no extractor. *)
Definition extractor_output (E : Env) (nc : str * Config) : list NewsRecord :=
  match fetch_page E (cfg_url (snd nc)) with
  | Ok (Some html) =>
      match assoc (cfg_parser (snd nc)) PARSERS with
      | Some parse => parse E html (cfg_base_url (snd nc))
      | None => []
      end
  | _ => []
  end.

(** The error message of a site, if it has one. *)
Definition site_error (E : Env) (nc : str * Config) : option str :=
  match fetch_page E (cfg_url (snd nc)) with
  | Ok (Some _) =>
      match assoc (cfg_parser (snd nc)) PARSERS with
      | Some _ => None
      | None => Some (fst nc ++ py "解析器未找到")
      end
  | Ok None => Some (fst nc ++ py "网站访问超时或失败")
  | Raise e => Some (fst nc ++ py "爬取异常: " ++ e)
  end.

Definition error_list (e : option str) : list str :=
  match e with
  | Some e => if truthy e then [e] else []
  | None => []
  end.

(** Decreasing sort keys. *)
Definition key_ge {A : Type} (key : A -> str) (a b : A) : Prop :=
  str_leb (key b) (key a) = true.

Fixpoint nodup_strs (l : list str) : bool :=
  match l with
  | [] => true
  | a :: l' => negb (str_in a l') && nodup_strs l'
  end.






(** The two lists a run returned; empty when it raised. *)
Definition news_of (x : result (list NewsRecord * list str)) : list NewsRecord :=
  match x with Ok (news, _) => news | Raise _ => [] end.

Definition errors_of (x : result (list NewsRecord * list str)) : list str :=
  match x with Ok (_, errors) => errors | Raise _ => [] end.


Definition all_decimal (s : str) : Prop := Forall (fun c => isdecimal c = true) s.

Definition no_decimal (s : str) : Prop := Forall (fun c => isdecimal c = false) s.

(** The parts of a date token: a year of four digits, a separator, a month
    of one or two digits, a separator, a day of one or two digits. *)
Definition date_token (sep : char -> bool) (y : str) (s1 : char) (mo : str)
    (s2 : char) (da : str) : Prop :=
  (length y = 4%nat /\ all_decimal y)
  /\ sep s1 = true
  /\ ((1 <= length mo <= 2)%nat /\ all_decimal mo)
  /\ sep s2 = true
  /\ ((1 <= length da <= 2)%nat /\ all_decimal da).

Definition is_date_token (sep : char -> bool) (tok : str) : Prop :=
  exists y s1 mo s2 da,
    tok = y ++ s1 :: mo ++ s2 :: da /\ date_token sep y s1 mo s2 da.

(** The token does not go on in [rest]: its day has two digits, or no digit
    follows. *)
Definition token_ends (da rest : str) : Prop :=
  length da = 2%nat
  \/ match rest with
     | [] => True
     | c :: _ => isdecimal c = false
     end.

(** [link.get("href", "")] *)
Definition href_of (link : node) : str :=
  match attr_get (py "href") link with
  | Some h => h
  | None => []
  end.

(** [n] repetitions are within the bound [hi]. *)
Definition within (n : nat) (hi : option nat) : Prop :=
  match hi with
  | Some h => (n <= h)%nat
  | None => True
  end.

(** The five grounds on which [is_valid_news] turns an entry down. *)
Definition rejected (title url date_text : str) : Prop :=
  (length title < 6)%nat
  \/ In title nav_keywords
  \/ ((length title < 10)%nat
      /\ exists kw, In kw nav_keywords /\ occurs_in kw title)
  \/ (occurs_in (py "list.htm") url /\ ~ occurs_in (py "/c") url)
  \/ date_text = [].

(** ** Fixtures

    A network of six small pages and a feed, with the libraries fixed on
    them: [requests.get] answers from a table of responses and times out on
    any other url, the parsers answer from tables of the documents and JSON
    arrays written out below, and [urljoin] appends the reference to the
    base, which is what [urllib] does on the references of these pages (a
    path from the root on a base without a path, or a plain relative path on
    a base that ends with a slash). *)

Definition bytes (s : String.string) : list N :=
  map N_of_ascii (String.list_ascii_of_string s).

Definition page (s : String.string) : Response := mkResponse 200 (bytes s).

Definition document (children : list node) : node :=
  Elem (py "[document]") []
    [Elem (py "html") [] [Elem (py "body") [] children]].

Definition fixture_env (net : list (str * Response)) (docs : list (str * node))
    (arrays : list (str * json)) : Env :=
  mkEnv
    (fun url =>
       match assoc url net with
       | Some r => Ok r
       | None => Raise (py "timed out")
       end)
    (fun r =>
       if (400 <=? status_code r) && (status_code r <? 600)
       then Raise (py "HTTPError") else Ok tt)
    (fun _ => py "utf-8")
    (fun r _ => Ok (utf8_decode (content r)))
    (fun html =>
       match assoc html docs with
       | Some d => d
       | None => document []
       end)
    (fun base href => Ok (base ++ href))
    (fun s =>
       match assoc s arrays with
       | Some v => Ok v
       | None => Raise (py "JSONDecodeError")
       end).

(** A news list with a date in a span, and a navigation link. *)
Definition html_span_dash : String.string :=
  "<ul class='news_list'><li><a href='/2024/0305/c1a2/page.htm'>统战部召开专题工作会议</a><span class='news_date'>2024-03-05</span></li><li><a href='/bmgk/list.htm'>部门概况</a></li></ul>".

Definition doc_span_dash : node :=
  document
    [Elem (py "ul") [(py "class", py "news_list")]
       [Elem (py "li") []
          [Elem (py "a") [(py "href", py "/2024/0305/c1a2/page.htm")]
             [Text (py "统战部召开专题工作会议")];
           Elem (py "span") [(py "class", py "news_date")]
             [Text (py "2024-03-05")]];
        Elem (py "li") []
          [Elem (py "a") [(py "href", py "/bmgk/list.htm")]
             [Text (py "部门概况")]]]].

(** A news list whose span writes an older date with slashes. *)
Definition html_span_slash : String.string :=
  "<div class='news_list'><ul><li><span class='Article_PublishDate'>2024/03/04</span><a href='/2024/0304/c3a4/page.htm'>党外人士代表座谈会纪要</a></li></ul></div>".

Definition doc_span_slash : node :=
  document
    [Elem (py "div") [(py "class", py "news_list")]
       [Elem (py "ul") []
          [Elem (py "li") []
             [Elem (py "span") [(py "class", py "Article_PublishDate")]
                [Text (py "2024/03/04")];
              Elem (py "a") [(py "href", py "/2024/0304/c3a4/page.htm")]
                [Text (py "党外人士代表座谈会纪要")]]]]].

(** A list without the known classes, the date in the text of the item. *)
Definition html_text_date : String.string :=
  "<ul><li><a href='/2024/0302/c5a6/page.htm'>民主党派工作交流会举行</a> 2024/03/02</li><li><a href='/index/list.htm'>更多</a></li></ul>".

Definition doc_text_date : node :=
  document
    [Elem (py "ul") []
       [Elem (py "li") []
          [Elem (py "a") [(py "href", py "/2024/0302/c5a6/page.htm")]
             [Text (py "民主党派工作交流会举行")];
           Text (py " 2024/03/02")];
        Elem (py "li") []
          [Elem (py "a") [(py "href", py "/index/list.htm")]
             [Text (py "更多")]]]].

(** Anchors of the path-pattern site: a date in the anchor, a date in the
    parent, and a navigation link. *)
Definition html_posts : String.string :=
  "<div><a href='/post/101'>2024.03.05 统战部举行新年座谈会</a><p><span>2024/03/01</span><a href='/post/102'>无党派人士建言献策活动</a></p><a href='/post/'>更多</a></div>".

Definition link_dated : node :=
  Elem (py "a") [(py "href", py "/post/101")]
    [Text (py "2024.03.05 统战部举行新年座谈会")].

Definition link_undated : node :=
  Elem (py "a") [(py "href", py "/post/102")]
    [Text (py "无党派人士建言献策活动")].

Definition parent_dated : node :=
  Elem (py "p") [] [Elem (py "span") [] [Text (py "2024/03/01")]; link_undated].

Definition doc_posts : node :=
  document
    [Elem (py "div") []
       [link_dated; parent_dated;
        Elem (py "a") [(py "href", py "/post/")] [Text (py "更多")]]].

Definition html_index : String.string := "<html><body></body></html>".

Definition fixture_docs : list (str * node) :=
  [ (py html_span_dash, doc_span_dash);
    (py html_span_slash, doc_span_slash);
    (py html_text_date, doc_text_date);
    (py html_posts, doc_posts) ].

(** The feed: a dated entry and one whose date is no date. *)
Definition feed_array : String.string :=
  "[{'messagetitle':'学院举办专题研讨班','messagedate':'2024-03-03','messageurl':'detailpage/1.html'},{'messagetitle':'关于举办春季培训班的通知','messagedate':'待定','messageurl':'node933/notice.html'}]".

Definition feed_data : json :=
  JArr
    [ JObj [(py "messagetitle", JStr (py "学院举办专题研讨班"));
            (py "messagedate", JStr (py "2024-03-03"));
            (py "messageurl", JStr (py "detailpage/1.html"))];
      JObj [(py "messagetitle", JStr (py "关于举办春季培训班的通知"));
            (py "messagedate", JStr (py "待定"));
            (py "messageurl", JStr (py "node933/notice.html"))] ].

(** The payload of the specification's feed fixture, and the same with a
    title of two characters. *)
Definition spec_array : String.string :=
  "[{'messagetitle':'T','messagedate':'2024-01-01','messageurl':'detailpage/1.html'}]".

Definition spec_data : json :=
  JArr [ JObj [(py "messagetitle", JStr (py "T"));
               (py "messagedate", JStr (py "2024-01-01"));
               (py "messageurl", JStr (py "detailpage/1.html"))] ].

Definition spec_array_TT : String.string :=
  "[{'messagetitle':'TT','messagedate':'2024-01-01','messageurl':'detailpage/1.html'}]".

Definition spec_data_TT : json :=
  JArr [ JObj [(py "messagetitle", JStr (py "TT"));
               (py "messagedate", JStr (py "2024-01-01"));
               (py "messageurl", JStr (py "detailpage/1.html"))] ].

(** Feed entries whose date is written with slashes, and whose url only
    starts like one. *)
Definition odd_array : String.string :=
  "[{'messagetitle':'学院召开年度工作会议','messagedate':'2024/03/05','messageurl':'httpfoo'}]".

Definition odd_data : json :=
  JArr [ JObj [(py "messagetitle", JStr (py "学院召开年度工作会议"));
               (py "messagedate", JStr (py "2024/03/05"));
               (py "messageurl", JStr (py "httpfoo"))] ].

Definition fixture_arrays : list (str * json) :=
  [ (pyq feed_array, feed_data);
    (pyq spec_array, spec_data);
    (pyq spec_array_TT, spec_data_TT);
    (pyq odd_array, odd_data) ].

Definition feed_js (array : String.string) : Response :=
  mkResponse 200
    (map (fun c => if c =? 39 then 34 else c)
       (bytes (String.append "var gzdtList = " array))).

(** The pages of the six sites, in the order of [UNIVERSITIES]. *)
Definition site_pages : list (str * Response) :=
  [ (py "https://www.tzb.fudan.edu.cn/20423/list.htm", page html_span_dash);
    (py "https://tzb.sjtu.edu.cn/news", page html_posts);
    (py "https://tzb.tongji.edu.cn/syxw/list.htm", page html_span_dash);
    (py "https://tzb.ecnu.edu.cn/tzxw/list.htm", page html_span_slash);
    (py "https://tzb.shnu.edu.cn/zhyw/list.htm", page html_text_date);
    (py "https://www.shsy.org.cn/node933/shsy/tzll/gzdt/index.html",
     page html_index) ].

(** The network with every site up and the feed [array]. *)
Definition network (array : String.string) : Env :=
  fixture_env ((shsy_json_url, feed_js array) :: site_pages)
    fixture_docs fixture_arrays.

(** The same with the page of the path-pattern site timing out. *)
Definition network_sjtu_down : Env :=
  fixture_env
    ((shsy_json_url, feed_js feed_array)
       :: filter (fun p => negb (str_eqb (fst p) (py "https://tzb.sjtu.edu.cn/news")))
            site_pages)
    fixture_docs fixture_arrays.


(** An item of a list site whose span writes the date with dots. *)
Definition item_span_dotted : node :=
  Elem (py "li") []
    [Elem (py "a") [(py "href", py "/2024/0305/c7a8/page.htm")]
       [Text (py "统一战线工作会议召开")];
     Elem (py "span") [(py "class", py "date")] [Text (py "2024.03.05")]].


(** The record of the first list page, and an anchor with a date in the
    middle of its text with the record it gives. *)
Definition fudan_record : NewsRecord :=
  mkNews (py "复旦大学") (py "统战部召开专题工作会议") (py "2024-03-05")
    (py "https://www.tzb.fudan.edu.cn/2024/0305/c1a2/page.htm").

Definition link_mid_date : node :=
  Elem (py "a") [(py "href", py "/post/103")]
    [Text (py "会议通知 2024/03/05 统战部工作例会安排")].

Definition mid_date_record : NewsRecord :=
  mkNews (py "上海交通大学") (py "会议通知 2024/03/05 统战部工作例会安排")
    (py "2024-03-05") (py "https://tzb.sjtu.edu.cn/post/103").

Definition item_text_date : node :=
  Elem (py "li") []
    [Elem (py "a") [(py "href", py "/2024/0302/c5a6/page.htm")]
       [Text (py "民主党派工作交流会举行")];
     Text (py " 2024/03/05")].

Definition text_date_record : NewsRecord :=
  mkNews (py "上海师范大学") (py "民主党派工作交流会举行") (py "2024-03-05")
    (py "https://tzb.shnu.edu.cn/2024/0302/c5a6/page.htm").

(** ** app.py: the statistics and the source tags *)

(** [d[key] = v] on a dictionary kept as the list of its items in insertion
    order: a key that is there keeps its place. *)
Fixpoint dict_set {V : Type} (key : str) (v : V) (d : list (str * V))
    : list (str * V) :=
  match d with
  | [] => [(key, v)]
  | (k, x) :: d' =>
      if str_eqb key k then (k, v) :: d' else (k, x) :: dict_set key v d'
  end.

(** [d.get(key, 0)] *)
Definition dict_get0 (key : str) (d : list (str * nat)) : nat :=
  match assoc key d with
  | Some n => n
  | None => 0%nat
  end.

(** One pass of the loop that counts the records of each source:
    [source_counts[source] = source_counts.get(source, 0) + 1]. *)
Definition count_source (source_counts : list (str * nat)) (item : NewsRecord)
    : list (str * nat) :=
  dict_set (source item) (dict_get0 (source item) source_counts + 1)%nat
    source_counts.

Definition source_counts (news : list NewsRecord) : list (str * nat) :=
  fold_left count_source news [].


(** ** Further notions used to state the properties *)

(** The number of records of a source. *)
Definition count_of_source (s : str) (news : list NewsRecord) : nat :=
  length (filter (fun r => str_eqb s (source r)) news).

(** A date written with four digits for the year and two for the month and
    the day, and what it is worth in the order of the calendar. *)
Definition two_digits (n : N) : str := [48 + n / 10; 48 + n mod 10].

Definition four_digits (n : N) : str :=
  [48 + n / 1000; 48 + (n / 100) mod 10; 48 + (n / 10) mod 10; 48 + n mod 10].

Definition padded_date (sep : char) (y m d : N) : str :=
  four_digits y ++ sep :: two_digits m ++ sep :: two_digits d.

Definition day_rank (y m d : N) : N := y * 10000 + m * 100 + d.

Definition is_dash (c : char) : bool := c =? 45.

(** No white space at either end. *)
Definition is_stripped (s : str) : Prop := lstrip s = s /\ rstrip s = s.

(** The four list sites and the site each parser is configured for. *)
Definition site_of_parser (key : str) : option str :=
  option_map fst
    (List.find (fun nc => str_eqb (cfg_parser (snd nc)) key) UNIVERSITIES).


Definition ecnu_record : NewsRecord :=
  mkNews (py "华东师范大学") (py "党外人士代表座谈会纪要") (py "2024/03/04")
    (py "https://tzb.ecnu.edu.cn/2024/0304/c3a4/page.htm").


(** The records of the run on the fixture network. *)
Definition fixture_news : list NewsRecord :=
  news_of (scrape_all_universities (network feed_array) UNIVERSITIES).


(** * Properties *)

(** ** Strings *)

Lemma str_eqb_eq (a b : str) : str_eqb a b = true <-> a = b.
Proof.
  revert b; induction a as [|x a IH]; intros [|y b]; simpl;
    try (split; [discriminate | congruence]); try tauto.
  rewrite andb_true_iff, N.eqb_eq, IH.
  split; [intros [-> ->]; reflexivity | intros H; inversion H; auto].
Qed.

Lemma str_eqb_refl (a : str) : str_eqb a a = true.
Proof. now apply str_eqb_eq. Qed.

Lemma str_in_In (s : str) (l : list str) : str_in s l = true <-> In s l.
Proof.
  unfold str_in. rewrite existsb_exists. split.
  - intros (x & Hx & He). apply str_eqb_eq in He. now subst.
  - intros H. exists s. split; [assumption | apply str_eqb_refl].
Qed.

Lemma startswith_prefix (p s : str) :
  startswith p s = true <-> exists post, s = p ++ post.
Proof.
  revert s; induction p as [|x p IH]; intros s; simpl.
  - split; [intros _; now exists s | reflexivity].
  - destruct s as [|y s].
    + split; [discriminate | intros [post H]; discriminate].
    + rewrite andb_true_iff, N.eqb_eq, IH. split.
      * intros [-> [post ->]]. now exists post.
      * intros [post H]. inversion H; subst. split; [reflexivity | now exists post].
Qed.

Lemma contains_occurs (sub s : str) : contains sub s = true <-> occurs_in sub s.
Proof.
  unfold occurs_in. induction s as [|c s IH]; simpl.
  - rewrite orb_false_r, startswith_prefix. split.
    + intros [post H]. now exists [], post.
    + intros (pre & post & H). destruct pre as [|a pre]; [|discriminate].
      now exists post.
  - rewrite orb_true_iff, startswith_prefix, IH. split.
    + intros [[post H] | (pre & post & H)].
      * now exists [], post.
      * exists (c :: pre), post. simpl. now rewrite H.
    + intros (pre & post & H). destruct pre as [|a pre].
      * left. now exists post.
      * right. inversion H; subst. now exists pre, post.
Qed.

Lemma truthy_true (s : str) : truthy s = true <-> s <> [].
Proof. destruct s; simpl; split; congruence. Qed.

(** ** The validator *)

Lemma is_valid_news_false_iff (title url date_text : str) :
  is_valid_news title url date_text = false <-> rejected title url date_text.
Proof.
  unfold is_valid_news, rejected.
  destruct (length title <? 6)%nat eqn:Hlen.
  { apply Nat.ltb_lt in Hlen. tauto. }
  apply Nat.ltb_ge in Hlen.
  destruct (str_in title nav_keywords) eqn:Hin.
  { apply str_in_In in Hin. tauto. }
  assert (Hnin : ~ In title nav_keywords).
  { intros H. apply str_in_In in H. congruence. }
  destruct (existsb _ nav_keywords) eqn:Hex.
  { apply existsb_exists in Hex. destruct Hex as (kw & Hkw & Hc).
    apply orb_true_iff in Hc. destruct Hc as [Hc | Hc].
    - apply str_eqb_eq in Hc. subst. tauto.
    - apply andb_true_iff in Hc. destruct Hc as [Hl Hc].
      apply Nat.ltb_lt in Hl. apply contains_occurs in Hc.
      split; [intros _ | reflexivity]. right; right; left. eauto. }
  assert (Hnsub : ~ ((length title < 10)%nat
                     /\ exists kw, In kw nav_keywords /\ occurs_in kw title)).
  { intros (Hl & kw & Hkw & Hc).
    assert (existsb
              (fun kw => str_eqb title kw
                         || ((length title <? 10)%nat && contains kw title))
              nav_keywords = true) as Hx; [| congruence].
    apply existsb_exists. exists kw. split; [assumption |].
    apply orb_true_iff. right. apply andb_true_iff. split.
    - now apply Nat.ltb_lt.
    - now apply contains_occurs. }
  assert (Hurl : contains (py "list.htm") url && negb (contains (py "/c") url)
                 = true
                 <-> occurs_in (py "list.htm") url /\ ~ occurs_in (py "/c") url).
  { rewrite andb_true_iff, negb_true_iff, contains_occurs.
    rewrite <- (contains_occurs (py "/c") url).
    destruct (contains (py "/c") url); split; intros [H1 H2];
      (split; [assumption | congruence]). }
  destruct (contains (py "list.htm") url && negb (contains (py "/c") url)).
  { split; [intros _ | reflexivity]. right; right; right; left.
    now apply Hurl. }
  assert (Hnurl : ~ (occurs_in (py "list.htm") url
                     /\ ~ occurs_in (py "/c") url)).
  { intros H. apply Hurl in H. discriminate. }
  destruct date_text as [|c date_text]; simpl.
  - tauto.
  - split; [discriminate |]. intros H1.
    destruct H1 as [H1 | H1]; [lia |].
    destruct H1 as [H1 | H1]; [now elim Hnin |].
    destruct H1 as [H1 | H1]; [now elim Hnsub |].
    destruct H1 as [H1 | H1]; [now elim Hnurl | discriminate].
Qed.

(** C3: [is_valid_news] answers [False] exactly when the title is shorter
    than 6, or is an entry of the navigation list, or is shorter than 10 and
    has an entry of the list as a part, or the url has "list.htm" and no "/c"
    in it, or the date text is empty; in every other case it answers [True]. *)
Theorem is_valid_news_rejects_exactly (title url date_text : str) :
  (is_valid_news title url date_text = false <-> rejected title url date_text)
  /\ (is_valid_news title url date_text = true
      <-> ~ rejected title url date_text).
Proof.
  pose proof (is_valid_news_false_iff title url date_text) as Hfalse.
  split; [exact Hfalse |].
  rewrite <- Hfalse. destruct (is_valid_news title url date_text).
  - split; [discriminate | reflexivity].
  - split; [discriminate | intros H; now elim H].
Qed.
(** ** The order of strings *)

Lemma str_ltb_irrefl (a : str) : str_ltb a a = false.
Proof.
  induction a as [|x a IH]; simpl; [reflexivity |].
  rewrite N.ltb_irrefl, N.eqb_refl, IH. reflexivity.
Qed.

Lemma str_ltb_trans (a b c : str) :
  str_ltb a b = true -> str_ltb b c = true -> str_ltb a c = true.
Proof.
  revert b c; induction a as [|x a IH]; intros [|y b] [|z c]; simpl;
    try discriminate; try reflexivity.
  rewrite !orb_true_iff, !andb_true_iff, !N.ltb_lt, !N.eqb_eq.
  intros [H1 | [H1 H1']] [H2 | [H2 H2']].
  - left. lia.
  - left. lia.
  - left. lia.
  - right. split; [lia | eauto].
Qed.

Lemma str_ltb_asym (a b : str) : str_ltb a b = true -> str_ltb b a = false.
Proof.
  intros H. destruct (str_ltb b a) eqn:Hba; [| reflexivity].
  pose proof (str_ltb_trans _ _ _ H Hba) as Haa.
  now rewrite str_ltb_irrefl in Haa.
Qed.

Lemma str_ltb_total (a b : str) :
  str_ltb a b = false -> str_ltb b a = false -> a = b.
Proof.
  revert b; induction a as [|x a IH]; intros [|y b]; simpl;
    try discriminate; try reflexivity.
  rewrite !orb_false_iff, !andb_false_iff, !N.ltb_ge, !N.eqb_neq.
  intros [H1 H1'] [H2 H2'].
  assert (x = y) by lia. subst y. f_equal. apply IH.
  - destruct H1' as [? | ?]; [congruence | assumption].
  - destruct H2' as [? | ?]; [congruence | assumption].
Qed.

Lemma str_leb_trans (a b c : str) :
  str_leb a b = true -> str_leb b c = true -> str_leb a c = true.
Proof.
  unfold str_leb. rewrite !negb_true_iff. intros Hba Hcb.
  destruct (str_ltb c a) eqn:Hca; [| reflexivity].
  destruct (str_ltb a b) eqn:Hab.
  - pose proof (str_ltb_trans _ _ _ Hca Hab). congruence.
  - assert (a = b) by now apply str_ltb_total. subst. congruence.
Qed.

Lemma str_leb_antisym (a b : str) :
  str_leb a b = true -> str_leb b a = true -> a = b.
Proof.
  unfold str_leb. rewrite !negb_true_iff. intros H1 H2.
  now apply str_ltb_total.
Qed.

Lemma str_ltb_leb (a b : str) : str_ltb a b = true -> str_leb a b = true.
Proof. intros H. unfold str_leb. now rewrite (str_ltb_asym _ _ H). Qed.

(** ** The stable sort *)

Section Sort.
Context {A : Type} (key : A -> str).

Lemma insert_desc_perm (x : A) (l : list A) :
  Permutation (insert_desc key x l) (x :: l).
Proof.
  induction l as [|y l IH]; simpl; [reflexivity |].
  destruct (str_ltb (key x) (key y)); [| reflexivity].
  rewrite IH. apply perm_swap.
Qed.

Lemma sort_desc_perm (l : list A) : Permutation (sort_desc key l) l.
Proof.
  induction l as [|x l IH]; simpl; [reflexivity |].
  rewrite insert_desc_perm. now constructor.
Qed.

Lemma insert_desc_sorted (x : A) (l : list A) :
  StronglySorted (key_ge key) l ->
  StronglySorted (key_ge key) (insert_desc key x l).
Proof.
  induction 1 as [|y l Hs IH Hall]; simpl.
  - repeat constructor.
  - destruct (str_ltb (key x) (key y)) eqn:Hxy.
    + constructor; [assumption |].
      apply (Permutation_Forall (Permutation_sym (insert_desc_perm x l))).
      constructor; [| assumption].
      now apply str_ltb_leb.
    + constructor; [now constructor |].
      assert (Hyx : key_ge key x y).
      { unfold key_ge, str_leb. now rewrite Hxy. }
      constructor; [assumption |].
      eapply Forall_impl; [| exact Hall].
      intros z Hz. unfold key_ge in *. eapply str_leb_trans; eassumption.
Qed.

Lemma sort_desc_sorted (l : list A) : StronglySorted (key_ge key) (sort_desc key l).
Proof.
  induction l as [|x l IH]; simpl; [constructor |].
  now apply insert_desc_sorted.
Qed.

Lemma sorted_before (l1 l2 l3 : list A) (a b : A) :
  StronglySorted (key_ge key) (l1 ++ a :: l2 ++ b :: l3) -> key_ge key a b.
Proof.
  induction l1 as [|x l1 IH]; simpl; intros H.
  - apply StronglySorted_inv in H. destruct H as [_ H].
    rewrite Forall_forall in H. apply H.
    apply in_or_app. right. now left.
  - apply StronglySorted_inv in H. now apply IH.
Qed.

(** Records with the same key keep the order they had. *)
Lemma insert_desc_stable (k : str) (x : A) (l : list A) :
  StronglySorted (key_ge key) l ->
  filter (fun a => str_eqb (key a) k) (insert_desc key x l)
  = filter (fun a => str_eqb (key a) k) (x :: l).
Proof.
  induction 1 as [|y l Hs IH Hall]; [reflexivity |].
  cbn [insert_desc]. destruct (str_ltb (key x) (key y)) eqn:Hxy; [| reflexivity].
  cbn [filter] in *. rewrite IH.
  destruct (str_eqb (key x) k) eqn:Hx; [| reflexivity].
  destruct (str_eqb (key y) k) eqn:Hy; [| reflexivity].
  apply str_eqb_eq in Hx, Hy. subst k. rewrite Hy, str_ltb_irrefl in Hxy.
  discriminate.
Qed.

Lemma sort_desc_stable (k : str) (l : list A) :
  filter (fun a => str_eqb (key a) k) (sort_desc key l)
  = filter (fun a => str_eqb (key a) k) l.
Proof.
  induction l as [|x l IH]; [reflexivity |].
  cbn [sort_desc]. rewrite insert_desc_stable by apply sort_desc_sorted.
  cbn [filter]. now rewrite IH.
Qed.

End Sort.

(** ** Fetching a page *)

Lemma fetch_page_cases (E : Env) (url : str) :
  fetch_page E url = Ok None \/ exists text, fetch_page E url = Ok (Some text).
Proof.
  unfold fetch_page, try_except, bind.
  destruct (requests_get E url) as [response |]; [| now left].
  destruct (raise_for_status E response); [| now left].
  destruct (response_text E response _) as [text |]; [| now left].
  right. now exists text.
Qed.


(** ** One site *)

Lemma scrape_university_returns (E : Env) (name : str) (config : Config) :
  scrape_university E name config
  = Ok (name, extractor_output E (name, config), site_error E (name, config)).
Proof.
  unfold scrape_university, extractor_output, site_error. cbn [fst snd].
  destruct (fetch_page_cases E (cfg_url config)) as [H | [text H]];
    rewrite H; cbn [bind try_except]; [reflexivity |].
  destruct (assoc (cfg_parser config) PARSERS); reflexivity.
Qed.

Lemma gather_returns (E : Env) (completed : list (str * Config))
    (acc : list NewsRecord * list str) :
  gather E completed acc
  = Ok (fst acc ++ flat_map (extractor_output E) completed,
        snd acc ++ flat_map (fun nc => error_list (site_error E nc)) completed).
Proof.
  revert acc; induction completed as [|[name config] rest IH]; intros [news errs].
  - simpl. now rewrite !app_nil_r.
  - cbn [gather]. rewrite scrape_university_returns. cbn [bind].
    rewrite IH. cbn [collect_result fst snd flat_map].
    rewrite <- !app_assoc. do 2 f_equal.
    unfold error_list. destruct (site_error E (name, config)) as [e |].
    + destruct (truthy e); simpl; now rewrite <- ?app_assoc.
    + reflexivity.
Qed.

Lemma scrape_all_returns (E : Env) (completed : list (str * Config)) :
  scrape_all_universities E completed
  = Ok (sort_desc parse_date (flat_map (extractor_output E) completed),
        flat_map (fun nc => error_list (site_error E nc)) completed).
Proof.
  unfold scrape_all_universities. rewrite gather_returns. reflexivity.
Qed.
(** ** All the sites *)

Lemma nodup_strs_NoDup (l : list str) : nodup_strs l = true -> NoDup l.
Proof.
  induction l as [|a l IH]; simpl; intros H; constructor;
    apply andb_true_iff in H; destruct H as [H1 H2].
  - intros Hin. apply str_in_In in Hin. rewrite Hin in H1. discriminate.
  - now apply IH.
Qed.





Lemma extractor_output_of_page (E : Env) (nc : str * Config) (html : str)
    (parse : parser) :
  fetch_page E (cfg_url (snd nc)) = Ok (Some html) ->
  assoc (cfg_parser (snd nc)) PARSERS = Some parse ->
  extractor_output E nc = parse E html (cfg_base_url (snd nc)).
Proof. intros H1 H2. unfold extractor_output. now rewrite H1, H2. Qed.

(** C10: the records [scrape_all_universities] returns are the records of
    the extractors, each exactly once and as the extractor made it: the list
    is a permutation of the outputs of the sites put end to end, so no field
    of a record, the date among them, is changed by the aggregation or by
    the sort, whose key is computed aside. *)
Theorem aggregate_permutes_extractor_outputs (E : Env)
    (completed : list (str * Config)) :
  Permutation completed UNIVERSITIES ->
  exists news errors,
    scrape_all_universities E completed = Ok (news, errors)
    /\ Permutation news (flat_map (extractor_output E) UNIVERSITIES)
    /\ (forall r, In r news ->
          exists nc, In nc UNIVERSITIES /\ In r (extractor_output E nc))
    /\ (forall nc html parse,
          In nc UNIVERSITIES ->
          fetch_page E (cfg_url (snd nc)) = Ok (Some html) ->
          assoc (cfg_parser (snd nc)) PARSERS = Some parse ->
          extractor_output E nc = parse E html (cfg_base_url (snd nc))).
Proof.
  intros Hperm. rewrite scrape_all_returns. do 2 eexists. split; [reflexivity |].
  assert (Hp : Permutation
                 (sort_desc parse_date (flat_map (extractor_output E) completed))
                 (flat_map (extractor_output E) UNIVERSITIES)).
  { rewrite sort_desc_perm. now apply Permutation_flat_map. }
  split; [exact Hp |]. split.
  - intros r Hr. apply (Permutation_in _ Hp) in Hr.
    apply in_flat_map in Hr. exact Hr.
  - intros nc html parse _. apply extractor_output_of_page.
Qed.


(** ** Sorted lists of keys *)

Lemma sorted_keys {A : Type} (key : A -> str) (l : list A) :
  StronglySorted (key_ge key) l ->
  StronglySorted (key_ge (fun k => k)) (map key l).
Proof.
  induction 1 as [|x l Hs IH Hall]; simpl; constructor; [assumption |].
  rewrite Forall_map. exact Hall.
Qed.

Lemma sorted_permutation_unique (l1 l2 : list str) :
  StronglySorted (key_ge (fun k => k)) l1 ->
  StronglySorted (key_ge (fun k => k)) l2 ->
  Permutation l1 l2 -> l1 = l2.
Proof.
  intros H1; revert l2; induction H1 as [|x l1 Hs1 IH Hall1];
    intros l2 H2 Hperm.
  - apply Permutation_nil in Hperm. now subst.
  - destruct H2 as [|y l2 Hs2 Hall2].
    + apply Permutation_sym, Permutation_nil in Hperm. discriminate.
    + assert (x = y) as ->.
      { assert (Hx : In x (y :: l2)) by (apply (Permutation_in _ Hperm); now left).
        assert (Hy : In y (x :: l1))
          by (apply (Permutation_in _ (Permutation_sym Hperm)); now left).
        rewrite Forall_forall in Hall1, Hall2. unfold key_ge in *.
        destruct Hx as [-> | Hx]; [reflexivity |].
        destruct Hy as [<- | Hy]; [reflexivity |].
        apply str_leb_antisym; [apply Hall2 | apply Hall1]; assumption. }
      f_equal. apply IH; [assumption |].
      now apply Permutation_cons_inv in Hperm.
Qed.
(** ** What every extracted record satisfies *)

Lemma collect_In {A B : Type} (f : A -> option B) (l : list A) (y : B) :
  In y (collect f l) <-> exists x, In x l /\ f x = Some y.
Proof.
  induction l as [|a l IH]; simpl.
  - split; [contradiction | intros (x & [] & _)].
  - destruct (f a) as [b |] eqn:Hfa; simpl; rewrite IH; split.
    + intros [<- | (x & Hx & Hf)]; [exists a | exists x]; auto.
    + intros (x & [<- | Hx] & Hf); [left; congruence | right; eauto].
    + intros (x & Hx & Hf). eauto.
    + intros (x & [<- | Hx] & Hf); [congruence | eauto].
Qed.

Lemma is_valid_news_true (title url date_text : str) :
  is_valid_news title url date_text = true ->
  (6 <= length title)%nat /\ date_text <> [].
Proof.
  unfold is_valid_news.
  destruct (length title <? 6)%nat eqn:Hlen; [discriminate |].
  apply Nat.ltb_ge in Hlen.
  destruct (str_in title nav_keywords); [discriminate |].
  destruct (existsb _ nav_keywords); [discriminate |].
  destruct (_ && _); [discriminate |].
  destruct date_text; [discriminate |].
  intros _. split; [exact Hlen | discriminate].
Qed.

Lemma list_item_record (E : Env) (source_name base_url : str) (item : node)
    (r : NewsRecord) :
  list_item E source_name base_url item = Some r ->
  source r = source_name
  /\ (6 <= length (title r))%nat
  /\ date r <> []
  /\ exists href, urljoin E base_url href = Ok (url r).
Proof.
  unfold list_item.
  destruct (find (py "a") item) as [link |]; [| discriminate].
  destruct (attr_get (py "href") link) as [href |]; [| discriminate].
  destruct (truthy href); [| discriminate]. cbn [negb].
  destruct (urljoin E base_url href) as [u |] eqn:Hu; [| discriminate].
  destruct (is_valid_news _ _ _) eqn:Hv; [| discriminate].
  intros H. injection H as <-. cbn [source title date url].
  apply is_valid_news_true in Hv. destruct Hv as [Hl Hd]. eauto.
Qed.

Lemma parse_list_site_record (source_name : str) (E : Env) (html base_url : str)
    (r : NewsRecord) :
  In r (parse_list_site source_name E html base_url) ->
  source r = source_name
  /\ (6 <= length (title r))%nat
  /\ date r <> []
  /\ exists href, urljoin E base_url href = Ok (url r).
Proof.
  unfold parse_list_site. intros H. apply collect_In in H.
  destruct H as (item & _ & H). now apply list_item_record in H.
Qed.

Lemma sjtu_item_record (E : Env) (base_url : str) (lp : node * node)
    (r : NewsRecord) :
  sjtu_item E base_url lp = Some r ->
  (6 <= length (title r))%nat
  /\ date r <> []
  /\ exists href, urljoin E base_url href = Ok (url r).
Proof.
  unfold sjtu_item. destruct lp as [link parent].
  destruct (urljoin E base_url _) as [u |] eqn:Hu; [| discriminate].
  destruct (sjtu_title_date link parent) as [title0 date_text].
  destruct (truthy (strip title0) && (6 <=? length (strip title0))%nat
            && truthy date_text) eqn:Hg; [| discriminate].
  intros H. injection H as <-. cbn [title date url].
  apply andb_true_iff in Hg. destruct Hg as [Hg Hd].
  apply andb_true_iff in Hg. destruct Hg as [_ Hl].
  apply Nat.leb_le in Hl. apply truthy_true in Hd. eauto.
Qed.

Lemma shsy_url_cases (E : Env) (msg_url u : str) :
  shsy_url E msg_url = Some u ->
  startswith (py "http") u = true
  \/ exists ref, urljoin E shsy_root ref = Ok u.
Proof.
  unfold shsy_url.
  destruct (startswith (py "http") msg_url) eqn:H1.
  { intros H. injection H as <-. now left. }
  destruct (startswith (py "detailpage/") msg_url).
  { intros H. injection H as <-. left. reflexivity. }
  destruct (truthy msg_url); [| discriminate].
  destruct (urljoin E shsy_root msg_url) eqn:Hu; [| discriminate].
  intros H. injection H as <-. right. eauto.
Qed.

Lemma shsy_item_record (E : Env) (item : json) (r : NewsRecord) :
  shsy_item E item = Some r ->
  (2 <= length (title r))%nat
  /\ date r <> []
  /\ (startswith (py "http") (url r) = true
      \/ exists ref, urljoin E shsy_root ref = Ok (url r)).
Proof.
  unfold shsy_item.
  destruct (shsy_field (py "messagetitle") item) as [t |]; [| discriminate].
  destruct (shsy_field (py "messagedate") item) as [d |]; [| discriminate].
  destruct (shsy_field (py "messageurl") item) as [m |]; [| discriminate].
  destruct (shsy_url E m) as [u |] eqn:Hu; [| discriminate].
  destruct (truthy t && (2 <=? length t)%nat && truthy d) eqn:Hg; [| discriminate].
  intros H. injection H as <-. cbn [title date url].
  apply andb_true_iff in Hg. destruct Hg as [Hg Hd].
  apply andb_true_iff in Hg. destruct Hg as [_ Hl].
  apply Nat.leb_le in Hl. apply truthy_true in Hd.
  apply shsy_url_cases in Hu. auto.
Qed.

Lemma parse_shsy_record (E : Env) (html base_url : str) (r : NewsRecord) :
  In r (parse_shsy E html base_url) ->
  (2 <= length (title r))%nat
  /\ date r <> []
  /\ (startswith (py "http") (url r) = true
      \/ exists ref, urljoin E shsy_root ref = Ok (url r)).
Proof.
  unfold parse_shsy.
  destruct (requests_get E shsy_json_url) as [response |]; [| contradiction].
  destruct (response_text E response _) as [js |]; [| contradiction].
  destruct (search_group1 re_gzdt js) as [json_str |]; [| contradiction].
  destruct (json_loads E json_str) as [[| | | | data |] |]; try contradiction.
  intros H. apply collect_In in H. destruct H as (item & _ & H).
  now apply shsy_item_record in H.
Qed.


Lemma extractor_output_dated (E : Env) (nc : str * Config) (r : NewsRecord) :
  In r (extractor_output E nc) -> date r <> [].
Proof.
  unfold extractor_output.
  destruct (fetch_page E _) as [[html |] |]; try contradiction.
  destruct (assoc (cfg_parser (snd nc)) PARSERS) as [parse |] eqn:Hp;
    [| contradiction].
  revert Hp. unfold PARSERS. cbn [assoc].
  repeat (destruct (str_eqb (cfg_parser (snd nc)) _);
          [intros Hp; injection Hp as <-; intros Hr |]);
    try discriminate.
  1, 3, 4, 5: now apply parse_list_site_record in Hr.
  - unfold parse_sjtu in Hr. apply collect_In in Hr.
    destruct Hr as (lp & _ & Hr). now apply sjtu_item_record in Hr.
  - now apply parse_shsy_record in Hr.
Qed.

(** The four list extractors let no navigation label through: the title of a
    record is no entry of the navigation list and, when shorter than 10, has
    none as a part; and its url is not that of a listing page. *)
Theorem list_site_titles_are_no_navigation (source_name : str) (E : Env)
    (html base_url : str) (r : NewsRecord) :
  In r (parse_list_site source_name E html base_url) ->
  ~ In (title r) nav_keywords
  /\ ((length (title r) < 10)%nat ->
      forall kw, In kw nav_keywords -> ~ occurs_in kw (title r))
  /\ ~ (occurs_in (py "list.htm") (url r) /\ ~ occurs_in (py "/c") (url r)).
Proof.
  unfold parse_list_site. intros H. apply collect_In in H.
  destruct H as (item & _ & H). unfold list_item in H.
  destruct (find (py "a") item) as [link |]; [| discriminate].
  destruct (attr_get (py "href") link) as [href |]; [| discriminate].
  destruct (negb (truthy href)); [discriminate |].
  destruct (urljoin E base_url href) as [u |]; [| discriminate].
  destruct (is_valid_news _ u _) eqn:Hv; [| discriminate].
  injection H as <-. cbn [title url].
  assert (Hnot : ~ rejected (get_text_strip link) u
                     match find_date_span item with
                     | Some date_span => get_text_strip date_span
                     | None =>
                         match search_group1 re_date2 (get_text item) with
                         | Some d => replace_char 47 45 d
                         | None => []
                         end
                     end).
  { intros Hrej. apply is_valid_news_false_iff in Hrej. congruence. }
  unfold rejected in Hnot. split; [tauto |]. split; [| tauto].
  intros Hlen kw Hkw Hocc. apply Hnot. right; right; left. eauto.
Qed.

Lemma list_site_titles_on_fixture :
  In fudan_record
    (parse_list_site (py "复旦大学") (network feed_array) (py html_span_dash)
       (py "https://www.tzb.fudan.edu.cn"))
  /\ ~ In (title fudan_record) nav_keywords
  /\ ((length (title fudan_record) < 10)%nat ->
      forall kw, In kw nav_keywords -> ~ occurs_in kw (title fudan_record))
  /\ ~ (occurs_in (py "list.htm") (url fudan_record)
        /\ ~ occurs_in (py "/c") (url fudan_record)).
Proof.
  assert (H : In fudan_record
                (parse_list_site (py "复旦大学") (network feed_array)
                   (py html_span_dash) (py "https://www.tzb.fudan.edu.cn")))
    by (vm_compute; left; reflexivity).
  split; [exact H |].
  exact (list_site_titles_are_no_navigation (py "复旦大学") (network feed_array)
           (py html_span_dash) (py "https://www.tzb.fudan.edu.cn")
           fudan_record H).
Defined.
(** ** The run as a whole *)



(** ** The order of the result *)

(** C2, as the code has it: [scrape_all_universities] returns its records by
    decreasing sort key: of two records the earlier has a key at least as
    large as the later.  The key is the date with every "/" replaced by "-",
    not the date itself; every record has a date that is not empty, so none
    is keyed by "0000-00-00", and a date that is no date is keyed by its own
    text. *)
Theorem aggregate_sorted_by_key (E : Env) (completed : list (str * Config)) :
  exists news errors,
    scrape_all_universities E completed = Ok (news, errors)
    /\ (forall l1 a l2 b l3,
          news = l1 ++ a :: l2 ++ b :: l3 ->
          str_leb (parse_date b) (parse_date a) = true)
    /\ (forall r, In r news ->
          date r <> [] /\ parse_date r = replace_char 47 45 (date r)).
Proof.
  rewrite scrape_all_returns. do 2 eexists. split; [reflexivity |]. split.
  - intros l1 a l2 b l3 Heq.
    pose proof (sort_desc_sorted parse_date
                  (flat_map (extractor_output E) completed)) as Hs.
    rewrite Heq in Hs. exact (sorted_before parse_date _ _ _ _ _ Hs).
  - intros r Hr. apply (Permutation_in _ (sort_desc_perm _ _)) in Hr.
    apply in_flat_map in Hr. destruct Hr as (nc & _ & Hr).
    apply extractor_output_dated in Hr. split; [assumption |].
    unfold parse_date. destruct (date r); [contradiction | reflexivity].
Qed.

(** On the fixture network the fourth record (dated 2024-03-05) comes before
    the fifth (dated 2024/03/04), whose date is the larger string; and the
    first record has the date "待定", which is its key. *)
Lemma dates_not_descending_on_fixture :
  exists news errors,
    scrape_all_universities (network feed_array) UNIVERSITIES = Ok (news, errors)
    /\ map date news
       = map py [ "待定"; "2024-03-05"; "2024-03-05"; "2024-03-05";
                  "2024/03/04"; "2024-03-03"; "2024-03-02"; "2024-03-01" ]
    /\ str_leb (py "2024/03/04") (py "2024-03-05") = false
    /\ map parse_date news
       = map py [ "待定"; "2024-03-05"; "2024-03-05"; "2024-03-05";
                  "2024-03-04"; "2024-03-03"; "2024-03-02"; "2024-03-01" ]
    /\ str_ltb (py "2024-03-05") (py "待定") = true.
Proof.
  exists (news_of (scrape_all_universities (network feed_array) UNIVERSITIES)),
    (errors_of (scrape_all_universities (network feed_array) UNIVERSITIES)).
  vm_compute. repeat split.
Qed.

(** C9, as the code has it: two runs on the same pages and feed return the
    same records and the same error strings up to their order, and the same
    sequence of sort keys; the order of completion of the sites decides the
    order of the records with equal keys and of the error strings, and two
    runs that complete in the same order return the same. *)
Theorem runs_agree_up_to_completion_order (E : Env)
    (completed1 completed2 : list (str * Config)) :
  Permutation completed1 completed2 ->
  exists news1 errors1 news2 errors2,
    scrape_all_universities E completed1 = Ok (news1, errors1)
    /\ scrape_all_universities E completed2 = Ok (news2, errors2)
    /\ Permutation news1 news2
    /\ Permutation errors1 errors2
    /\ map parse_date news1 = map parse_date news2
    /\ (completed1 = completed2 -> news1 = news2 /\ errors1 = errors2).
Proof.
  intros Hperm. rewrite !scrape_all_returns. do 4 eexists.
  split; [reflexivity |]. split; [reflexivity |].
  assert (Hn : Permutation
                 (sort_desc parse_date (flat_map (extractor_output E) completed1))
                 (sort_desc parse_date (flat_map (extractor_output E) completed2))).
  { rewrite !sort_desc_perm. now apply Permutation_flat_map. }
  split; [exact Hn |]. split; [now apply Permutation_flat_map |]. split.
  - apply sorted_permutation_unique.
    + apply sorted_keys, sort_desc_sorted.
    + apply sorted_keys, sort_desc_sorted.
    + now apply Permutation_map.
  - intros ->. split; reflexivity.
Qed.

(** On the fixture network three sites have a record dated 2024-03-05; they
    come in the order in which the sites complete. *)
Lemma completion_order_changes_result :
  exists news1 errors1 news2 errors2,
    scrape_all_universities (network feed_array) UNIVERSITIES
    = Ok (news1, errors1)
    /\ scrape_all_universities (network feed_array) (rev UNIVERSITIES)
       = Ok (news2, errors2)
    /\ map source news1
       = map py [ "上海市社会主义学院"; "复旦大学"; "上海交通大学"; "同济大学";
                  "华东师范大学"; "上海市社会主义学院"; "上海师范大学";
                  "上海交通大学" ]
    /\ map source news2
       = map py [ "上海市社会主义学院"; "同济大学"; "上海交通大学"; "复旦大学";
                  "华东师范大学"; "上海市社会主义学院"; "上海师范大学";
                  "上海交通大学" ]
    /\ str_eqb (py "复旦大学") (py "同济大学") = false.
Proof.
  exists (news_of (scrape_all_universities (network feed_array) UNIVERSITIES)),
    (errors_of (scrape_all_universities (network feed_array) UNIVERSITIES)),
    (news_of (scrape_all_universities (network feed_array) (rev UNIVERSITIES))),
    (errors_of (scrape_all_universities (network feed_array) (rev UNIVERSITIES))).
  vm_compute. repeat split.
Qed.

Lemma runs_agree_on_fixture :
  Permutation UNIVERSITIES (rev UNIVERSITIES)
  /\ exists news1 errors1 news2 errors2,
       scrape_all_universities (network feed_array) UNIVERSITIES
       = Ok (news1, errors1)
       /\ scrape_all_universities (network feed_array) (rev UNIVERSITIES)
          = Ok (news2, errors2)
       /\ Permutation news1 news2
       /\ Permutation errors1 errors2
       /\ map parse_date news1 = map parse_date news2
       /\ (UNIVERSITIES = rev UNIVERSITIES -> news1 = news2 /\ errors1 = errors2).
Proof.
  split.
  - apply Permutation_rev.
  - apply (runs_agree_up_to_completion_order (network feed_array)
             UNIVERSITIES (rev UNIVERSITIES)).
    apply Permutation_rev.
Defined.

Lemma aggregate_permutes_on_fixture :
  Permutation (rev UNIVERSITIES) UNIVERSITIES
  /\ exists news errors,
       scrape_all_universities (network feed_array) (rev UNIVERSITIES)
       = Ok (news, errors)
       /\ Permutation news
            (flat_map (extractor_output (network feed_array)) UNIVERSITIES)
       /\ (forall r, In r news ->
             exists nc, In nc UNIVERSITIES
                        /\ In r (extractor_output (network feed_array) nc))
       /\ (forall nc html parse,
             In nc UNIVERSITIES ->
             fetch_page (network feed_array) (cfg_url (snd nc)) = Ok (Some html) ->
             assoc (cfg_parser (snd nc)) PARSERS = Some parse ->
             extractor_output (network feed_array) nc
             = parse (network feed_array) html (cfg_base_url (snd nc))).
Proof.
  split.
  - apply Permutation_sym, Permutation_rev.
  - apply (aggregate_permutes_extractor_outputs (network feed_array)
             (rev UNIVERSITIES)).
    apply Permutation_sym, Permutation_rev.
Defined.


(** The run with one site down, in full: six records and one error. *)
Example one_failed_site_run :
  map source (news_of (scrape_all_universities network_sjtu_down UNIVERSITIES))
  = map py [ "上海市社会主义学院"; "复旦大学"; "同济大学"; "华东师范大学";
             "上海市社会主义学院"; "上海师范大学" ]
  /\ errors_of (scrape_all_universities network_sjtu_down UNIVERSITIES)
     = [py "上海交通大学网站访问超时或失败"].
Proof. vm_compute. split; reflexivity. Qed.
(** ** The matcher *)

Lemma or_else_some {A : Type} (a b : option A) (v : A) :
  a = Some v -> or_else a b = Some v.
Proof. intros ->. reflexivity. Qed.

(** A repetition takes a run of the class that cannot go on. *)
Lemma rep_takes {A : Type} (p : char -> bool) (ds rest : str)
    (k : str -> option A) (v : A) :
  forall (lo : nat) (hi : option nat),
    Forall (fun c => p c = true) ds ->
    (lo <= length ds)%nat -> within (length ds) hi ->
    (hi = Some (length ds)
     \/ match rest with [] => True | c :: _ => p c = false end) ->
    k rest = Some v ->
    rep p lo hi (ds ++ rest) k = Some v.
Proof.
  induction ds as [|d ds IH]; intros lo hi Hall Hlo Hhi Hend Hk.
  - simpl in *. assert (lo = 0%nat) as -> by lia.
    destruct Hend as [-> | Hend].
    + destruct rest; exact Hk.
    + destruct hi as [[|h] |]; destruct rest as [|c rest'];
        simpl; try exact Hk; rewrite Hend; exact Hk.
  - inversion Hall as [|? ? Hd Hall']; subst. simpl in Hlo, Hhi.
    assert (Hstep : (if p d
                     then or_else (rep p (Nat.pred lo) (option_map Nat.pred hi)
                                     (ds ++ rest) k)
                            match lo with O => k (d :: ds ++ rest) | S _ => None end
                     else match lo with O => k (d :: ds ++ rest) | S _ => None end)
                    = Some v).
    { rewrite Hd. apply or_else_some. apply IH.
      - assumption.
      - lia.
      - destruct hi as [h |]; simpl in *; [lia | exact I].
      - destruct Hend as [-> | Hend]; [left; reflexivity | right; exact Hend].
      - exact Hk. }
    destruct hi as [[|h] |]; simpl in Hhi |- *; [lia | exact Hstep | exact Hstep].
Qed.

(** What a repetition that matched has taken. *)
Lemma rep_sound {A : Type} (p : char -> bool) (s : str) (k : str -> option A)
    (v : A) :
  forall (lo : nat) (hi : option nat),
    rep p lo hi s k = Some v ->
    exists ds rest,
      s = ds ++ rest /\ Forall (fun c => p c = true) ds
      /\ (lo <= length ds)%nat /\ within (length ds) hi
      /\ k rest = Some v.
Proof.
  assert (Hstop : forall lo hi s0,
            match lo with O => k s0 | S _ => None end = Some v ->
            exists ds rest,
              s0 = ds ++ rest /\ Forall (fun c => p c = true) ds
              /\ (lo <= length ds)%nat /\ within (length ds) hi
              /\ k rest = Some v).
  { intros lo hi s0 H. destruct lo; [| discriminate].
    exists [], s0. repeat split; auto.
    destruct hi; simpl; [lia | exact I]. }
  induction s as [|c s IH]; intros lo hi H.
  - apply Hstop. destruct hi as [[|h] |]; exact H.
  - assert (Hgo : (if p c
                   then or_else (rep p (Nat.pred lo) (option_map Nat.pred hi) s k)
                          match lo with O => k (c :: s) | S _ => None end
                   else match lo with O => k (c :: s) | S _ => None end)
                  = Some v ->
                  hi <> Some 0%nat ->
                  exists ds rest,
                    c :: s = ds ++ rest /\ Forall (fun c => p c = true) ds
                    /\ (lo <= length ds)%nat /\ within (length ds) hi
                    /\ k rest = Some v).
    { intros Hv Hhi. destruct (p c) eqn:Hc; [| now apply Hstop].
      destruct (rep p (Nat.pred lo) (option_map Nat.pred hi) s k) eqn:Hr;
        [| now apply Hstop].
      simpl in Hv. injection Hv as ->.
      apply IH in Hr. destruct Hr as (ds & rest & -> & Hall & Hlo & Hin & Hk).
      exists (c :: ds), rest. repeat split; auto.
      - simpl. lia.
      - destruct hi as [[|h] |]; simpl in *; [congruence | lia | exact I]. }
    destruct hi as [[|h] |].
    + apply Hstop. exact H.
    + apply Hgo; [exact H | discriminate].
    + apply Hgo; [exact H | discriminate].
Qed.

(** A repetition that needs a character fails where the class does not
    start. *)
Lemma rep_fails {A : Type} (p : char -> bool) (lo : nat) (hi : option nat)
    (s : str) (k : str -> option A) :
  match s with [] => True | c :: _ => p c = false end ->
  rep p (S lo) hi s k = None.
Proof.
  intros H. destruct s as [|c s]; destruct hi as [[|h] |]; simpl;
    try reflexivity; now rewrite H.
Qed.


(** ** Date tokens *)

Section DateTokens.
Variable sep : char -> bool.
Hypothesis sep_no_decimal : forall c, sep c = true -> isdecimal c = false.

Lemma date_body_matches {A : Type} (y : str) (s1 : char) (mo : str) (s2 : char)
    (da rest : str) (g : option str) (k : option str -> str -> option A) (v : A) :
  date_token sep y s1 mo s2 da -> token_ends da rest ->
  k g rest = Some v ->
  re_match (date_body sep) (y ++ s1 :: mo ++ s2 :: da ++ rest) g k = Some v.
Proof.
  intros ((Hy & Hyd) & Hs1 & ((Hm1 & Hm2) & Hmd) & Hs2 & ((Hd1 & Hd2) & Hdd))
         Hend Hk.
  unfold date_body. cbn [re_match].
  apply rep_takes; [exact Hyd | lia | simpl; lia | left; now rewrite Hy |].
  rewrite Hs1.
  apply rep_takes;
    [exact Hmd | lia | simpl; lia | right; now apply sep_no_decimal |].
  rewrite Hs2.
  apply rep_takes; [exact Hdd | lia | simpl; lia | | exact Hk].
  destruct Hend as [Hend | Hend]; [left; now rewrite Hend | right; exact Hend].
Qed.

Lemma date_body_sound {A : Type} (s : str) (g : option str)
    (k : option str -> str -> option A) (v : A) :
  re_match (date_body sep) s g k = Some v ->
  exists y s1 mo s2 da rest,
    s = y ++ s1 :: mo ++ s2 :: da ++ rest
    /\ date_token sep y s1 mo s2 da /\ k g rest = Some v.
Proof.
  unfold date_body. cbn [re_match]. intros H.
  apply rep_sound in H. destruct H as (y & r1 & -> & Hyd & Hy1 & Hy2 & H).
  destruct r1 as [|s1 r1]; [discriminate |].
  destruct (sep s1) eqn:Hs1; [| discriminate].
  apply rep_sound in H. destruct H as (mo & r2 & -> & Hmd & Hm1 & Hm2 & H).
  destruct r2 as [|s2 r2]; [discriminate |].
  destruct (sep s2) eqn:Hs2; [| discriminate].
  apply rep_sound in H. destruct H as (da & rest & -> & Hdd & Hd1 & Hd2 & H).
  exists y, s1, mo, s2, da, rest. simpl in Hy2, Hm2, Hd2.
  repeat split; auto; lia.
Qed.

Lemma firstn_prefix (tok rest : str) :
  firstn (length (tok ++ rest) - length rest) (tok ++ rest) = tok.
Proof.
  rewrite length_app, Nat.add_sub.
  rewrite firstn_app, Nat.sub_diag, firstn_all. simpl. apply app_nil_r.
Qed.

Lemma date_group_matches (y : str) (s1 : char) (mo : str) (s2 : char)
    (da rest : str) :
  date_token sep y s1 mo s2 da -> token_ends da rest ->
  match_at (Grp (date_body sep)) (y ++ s1 :: mo ++ s2 :: da ++ rest)
  = Some (Some (y ++ s1 :: mo ++ s2 :: da), rest).
Proof.
  intros Htok Hend. unfold match_at. cbn [re_match].
  apply date_body_matches; [exact Htok | exact Hend |].
  do 3 f_equal.
  replace (y ++ s1 :: mo ++ s2 :: da ++ rest)
    with ((y ++ s1 :: mo ++ s2 :: da) ++ rest).
  - apply firstn_prefix.
  - rewrite <- !app_assoc. simpl. rewrite <- app_assoc. reflexivity.
Qed.

Lemma date_group_sound (s : str) (g : option str) (rest : str) :
  match_at (Grp (date_body sep)) s = Some (g, rest) ->
  exists tok, is_date_token sep tok /\ s = tok ++ rest /\ g = Some tok.
Proof.
  unfold match_at. cbn [re_match]. intros H. apply date_body_sound in H.
  destruct H as (y & s1 & mo & s2 & da & rest' & -> & Htok & H).
  injection H as <- <-.
  assert (Heq : y ++ s1 :: mo ++ s2 :: da ++ rest'
                = (y ++ s1 :: mo ++ s2 :: da) ++ rest').
  { rewrite <- !app_assoc. simpl. rewrite <- app_assoc. reflexivity. }
  exists (y ++ s1 :: mo ++ s2 :: da). split; [| split].
  - exists y, s1, mo, s2, da. auto.
  - exact Heq.
  - rewrite Heq, firstn_prefix. reflexivity.
Qed.

(** A token at the start of a text is matched, if need be with one more
    digit of the day. *)
Lemma date_group_complete (tok rest : str) :
  is_date_token sep tok -> match_at (Grp (date_body sep)) (tok ++ rest) <> None.
Proof.
  intros (y & s1 & mo & s2 & da & -> & Htok).
  assert (Heq : forall r, (y ++ s1 :: mo ++ s2 :: da) ++ r
                          = y ++ s1 :: mo ++ s2 :: da ++ r).
  { intros r. rewrite <- !app_assoc. simpl. rewrite <- app_assoc. reflexivity. }
  rewrite Heq.
  destruct rest as [|c rest].
  { rewrite date_group_matches; [discriminate | exact Htok | right; exact I]. }
  destruct (isdecimal c) eqn:Hc.
  - destruct (Nat.eq_dec (length da) 2) as [H2 | H2].
    + rewrite date_group_matches; [discriminate | exact Htok | left; exact H2].
    + destruct Htok as (Hy & Hs1 & Hm & Hs2 & (Hd1 & Hd2) & Hdd).
      replace (da ++ c :: rest) with ((da ++ [c]) ++ rest)
        by (rewrite <- app_assoc; reflexivity).
      rewrite date_group_matches; [discriminate | |].
      * refine (conj Hy (conj Hs1 (conj Hm (conj Hs2 (conj _ _))))).
        -- rewrite length_app. simpl. lia.
        -- apply Forall_app. split; [exact Hdd | now constructor].
      * left. rewrite length_app. simpl. lia.
  - rewrite date_group_matches; [discriminate | exact Htok | right; exact Hc].
Qed.

Lemma date_group_fails (c : char) (s : str) :
  isdecimal c = false -> match_at (Grp (date_body sep)) (c :: s) = None.
Proof.
  intros Hc. unfold match_at, date_body. cbn [re_match].
  now apply rep_fails.
Qed.

Lemma search_skips_no_decimal (pre s : str) :
  no_decimal pre ->
  re_search (Grp (date_body sep)) (pre ++ s) = re_search (Grp (date_body sep)) s.
Proof.
  induction 1 as [|c pre Hc Hpre IH]; [reflexivity |].
  cbn [app re_search]. rewrite date_group_fails by exact Hc. exact IH.
Qed.

Lemma search_at_start (r : regex) (s : str) (x : option str * str) :
  match_at r s = Some x -> re_search r s = Some x.
Proof. intros H. destruct s; simpl; now rewrite H. Qed.

Lemma search_sound (s : str) (g : option str) (rest : str) :
  re_search (Grp (date_body sep)) s = Some (g, rest) ->
  exists pre tok,
    is_date_token sep tok /\ s = pre ++ tok ++ rest /\ g = Some tok.
Proof.
  induction s as [|c s IH]; cbn [re_search].
  - destruct (match_at _ []) as [[g' rest'] |] eqn:Hm; simpl; [| discriminate].
    intros H. injection H as -> ->. apply date_group_sound in Hm.
    destruct Hm as (tok & Ht & Hs & Hg). exists [], tok. auto.
  - destruct (match_at _ (c :: s)) as [[g' rest'] |] eqn:Hm; simpl.
    + intros H. injection H as -> ->. apply date_group_sound in Hm.
      destruct Hm as (tok & Ht & Hs & Hg). exists [], tok. auto.
    + intros H. apply IH in H. destruct H as (pre & tok & Ht & -> & Hg).
      exists (c :: pre), tok. auto.
Qed.

Lemma search_complete (pre tok post : str) :
  is_date_token sep tok ->
  re_search (Grp (date_body sep)) (pre ++ tok ++ post) <> None.
Proof.
  intros Htok. induction pre as [|c pre IH].
  - simpl. pose proof (date_group_complete tok post Htok) as Hm.
    destruct (tok ++ post); cbn [re_search];
      destruct (match_at _ _); simpl; congruence.
  - cbn [app re_search]. destruct (match_at _ (c :: _)); simpl; [discriminate |].
    exact IH.
Qed.

(** The search of a date finds nothing exactly in the texts without a token. *)
Lemma search_none_iff (s : str) :
  search_group1 (Grp (date_body sep)) s = None
  <-> forall tok, is_date_token sep tok -> ~ occurs_in tok s.
Proof.
  unfold search_group1. split.
  - intros H tok Htok (pre & post & ->).
    apply (search_complete pre tok post Htok).
    destruct (re_search _ _) as [[[g |] rest] |] eqn:Hs; try discriminate;
      [| reflexivity].
    apply search_sound in Hs. destruct Hs as (? & ? & _ & _ & Hg). discriminate.
  - intros H. destruct (re_search _ s) as [[g rest] |] eqn:Hs; [| reflexivity].
    apply search_sound in Hs. destruct Hs as (pre & tok & Htok & -> & ->).
    exfalso. apply (H tok Htok). now exists pre, rest.
Qed.

Lemma search_group1_sound (s tok : str) :
  search_group1 (Grp (date_body sep)) s = Some tok ->
  is_date_token sep tok /\ occurs_in tok s.
Proof.
  unfold search_group1.
  destruct (re_search _ s) as [[[g |] rest] |] eqn:Hs; try discriminate.
  intros H. injection H as ->. apply search_sound in Hs.
  destruct Hs as (pre & tok' & Htok & -> & Hg). injection Hg as <-.
  split; [exact Htok | now exists pre, rest].
Qed.

Lemma search_group1_token (pre : str) (y : str) (s1 : char) (mo : str)
    (s2 : char) (da rest : str) :
  no_decimal pre -> date_token sep y s1 mo s2 da -> token_ends da rest ->
  search_group1 (Grp (date_body sep)) (pre ++ y ++ s1 :: mo ++ s2 :: da ++ rest)
  = Some (y ++ s1 :: mo ++ s2 :: da).
Proof.
  intros Hpre Htok Hend. unfold search_group1.
  rewrite search_skips_no_decimal by exact Hpre.
  rewrite (search_at_start _ _ _ (date_group_matches _ _ _ _ _ _ Htok Hend)).
  reflexivity.
Qed.

End DateTokens.

Lemma sep2_no_decimal (c : char) : is_sep2 c = true -> isdecimal c = false.
Proof.
  unfold is_sep2. rewrite orb_true_iff, !N.eqb_eq. intros [-> | ->]; reflexivity.
Qed.

Lemma sep3_no_decimal (c : char) : is_sep3 c = true -> isdecimal c = false.
Proof.
  unfold is_sep3. rewrite !orb_true_iff, !N.eqb_eq.
  intros [[-> | ->] | ->]; reflexivity.
Qed.
(** ** Stripping and separators *)

Lemma lstrip_idem (s : str) : lstrip (lstrip s) = lstrip s.
Proof.
  induction s as [|c s IH]; simpl; [reflexivity |].
  destruct (isspace c) eqn:Hc; [exact IH |]. simpl. now rewrite Hc.
Qed.


Lemma dashes_map (s : str) :
  dashes s = map (fun c => if is_sep3 c then 45 else c) s.
Proof.
  unfold dashes, replace_char. rewrite map_map. apply map_ext. intros c.
  unfold is_sep3.
  destruct (c =? 46) eqn:H46.
  - rewrite orb_true_r. reflexivity.
  - rewrite orb_false_r.
    destruct (c =? 47) eqn:H47; [now rewrite orb_true_r |].
    rewrite orb_false_r. destruct (c =? 45) eqn:H45; [| reflexivity].
    now apply N.eqb_eq in H45.
Qed.

Lemma dashes_decimal (s : str) : all_decimal s -> dashes s = s.
Proof.
  rewrite dashes_map. induction 1 as [|c s Hc Hs IH]; simpl; [reflexivity |].
  rewrite IH. destruct (is_sep3 c) eqn:Hsep; [| reflexivity].
  apply sep3_no_decimal in Hsep. congruence.
Qed.

Lemma dashes_token (y : str) (s1 : char) (mo : str) (s2 : char) (da : str) :
  date_token is_sep3 y s1 mo s2 da ->
  dashes (y ++ s1 :: mo ++ s2 :: da) = y ++ 45 :: mo ++ 45 :: da.
Proof.
  intros ((_ & Hy) & Hs1 & (_ & Hm) & Hs2 & (_ & Hd)).
  rewrite <- (dashes_decimal y Hy) at 2.
  rewrite <- (dashes_decimal mo Hm) at 2.
  rewrite <- (dashes_decimal da Hd) at 2.
  rewrite !dashes_map, map_app. cbn [map]. rewrite map_app. cbn [map].
  now rewrite Hs1, Hs2.
Qed.

Lemma no_decimal_check (s : str) :
  forallb (fun c => negb (isdecimal c)) s = true -> no_decimal s.
Proof.
  intros H. apply Forall_forall. intros c Hc.
  rewrite forallb_forall in H. now apply negb_true_iff, H.
Qed.

Lemma all_decimal_check (s : str) : forallb isdecimal s = true -> all_decimal s.
Proof.
  intros H. apply Forall_forall. intros c Hc.
  rewrite forallb_forall in H. now apply H.
Qed.

Lemma truthy_length (s : str) (n : nat) : (S n <= length s)%nat -> truthy s = true.
Proof. destruct s; simpl; [lia | reflexivity]. Qed.

Lemma sjtu_item_date (E : Env) (base_url : str) (lp : node * node)
    (r : NewsRecord) :
  sjtu_item E base_url lp = Some r ->
  date r = snd (sjtu_title_date (fst lp) (snd lp))
  /\ title r = strip (fst (sjtu_title_date (fst lp) (snd lp))).
Proof.
  unfold sjtu_item. destruct lp as [link parent]. cbn [fst snd].
  destruct (urljoin E base_url _); [| discriminate].
  destruct (sjtu_title_date link parent) as [title0 date_text].
  destruct (_ && _); [| discriminate].
  intros H. injection H as <-. split; reflexivity.
Qed.

(** ** Dates of the path-pattern site *)

(** The parts of a date token written out. *)
Ltac decimals := apply all_decimal_check; vm_compute; reflexivity.

Ltac token_parts :=
  split; [split; [reflexivity | decimals] |];
  split; [reflexivity |];
  split; [split; [split; vm_compute; lia | decimals] |];
  split; [reflexivity |];
  split; [split; vm_compute; lia | decimals].


(** ** Which dates are normalized *)

Lemma two_tokens (tok : str) :
  tok = py "2024.03.05" \/ tok = py "2024/03/05" ->
  exists s1 s2,
    tok = py "2024" ++ s1 :: py "03" ++ s2 :: py "05"
    /\ date_token is_sep3 (py "2024") s1 (py "03") s2 (py "05").
Proof.
  intros [-> | ->]; [exists 46, 46 | exists 47, 47];
    (split; [reflexivity | token_parts]).
Qed.

Lemma slashed_token :
  date_token is_sep2 (py "2024") 47 (py "03") 47 (py "05").
Proof. token_parts. Qed.

(** C8, as the code has it: [parse_sjtu] turns a date token "2024.03.05" or
    "2024/03/05" that no digit precedes, in the text of the anchor or, when
    that text has no date token, in the text of the parent, into the date
    "2024-03-05"; the four list extractors turn a token "2024/03/05" that no
    digit precedes in the text of an item without a date span into the date
    "2024-03-05". *)
Theorem first_date_token_normalized (E : Env) (pre tok rest : str) :
  no_decimal pre ->
  (tok = py "2024.03.05" \/ tok = py "2024/03/05" ->
   forall base_url link parent r,
     sjtu_item E base_url (link, parent) = Some r ->
     (get_text_strip link = pre ++ tok ++ rest -> date r = py "2024-03-05")
     /\ ((forall t, is_date_token is_sep3 t ->
                    ~ occurs_in t (get_text_strip link)) ->
         get_text parent = pre ++ tok ++ rest -> date r = py "2024-03-05"))
  /\ (tok = py "2024/03/05" ->
      forall source_name base_url item r,
        list_item E source_name base_url item = Some r ->
        find_date_span item = None ->
        get_text item = pre ++ tok ++ rest ->
        date r = py "2024-03-05").
Proof.
  intros Hpre. split.
  - intros Htok base_url link parent r Hr.
    apply two_tokens in Htok. destruct Htok as (s1 & s2 & -> & Htok).
    apply sjtu_item_date in Hr. destruct Hr as [Hd _]. cbn [fst snd] in Hd.
    assert (Hfound : search_group1 re_date3
                       (pre ++ (py "2024" ++ s1 :: py "03" ++ s2 :: py "05") ++ rest)
                     = Some (py "2024" ++ s1 :: py "03" ++ s2 :: py "05")).
    { replace ((py "2024" ++ s1 :: py "03" ++ s2 :: py "05") ++ rest)
        with (py "2024" ++ s1 :: py "03" ++ s2 :: py "05" ++ rest)
        by reflexivity.
      apply (search_group1_token is_sep3 sep3_no_decimal);
        [exact Hpre | exact Htok | left; reflexivity]. }
    pose proof (dashes_token _ _ _ _ _ Htok) as Hdash.
    split.
    + intros Htext. rewrite Hd. unfold sjtu_title_date.
      rewrite Htext, Hfound. cbn [snd]. exact Hdash.
    + intros Hnone Htext. rewrite Hd. unfold sjtu_title_date.
      apply (search_none_iff is_sep3 sep3_no_decimal) in Hnone.
      fold re_date3 in Hnone. rewrite Hnone, Htext, Hfound. exact Hdash.
  - intros -> source_name base_url item r Hr Hspan Htext.
    unfold list_item in Hr.
    destruct (find (py "a") item) as [link |]; [| discriminate].
    destruct (attr_get (py "href") link) as [href |]; [| discriminate].
    destruct (negb (truthy href)); [discriminate |].
    destruct (urljoin E base_url href) as [u |]; [| discriminate].
    assert (Hfound : search_group1 re_date2 (pre ++ py "2024/03/05" ++ rest)
                     = Some (py "2024/03/05")).
    { exact (search_group1_token is_sep2 sep2_no_decimal pre _ _ _ _ _ rest
               Hpre slashed_token (or_introl eq_refl)). }
    rewrite Hspan, Htext, Hfound in Hr.
    destruct (is_valid_news _ _ _); [| discriminate].
    injection Hr as <-. reflexivity.
Qed.

(** The feed's date and the text of a date span are stored as they are. *)
Lemma unnormalized_dates_on_fixture :
  map date (parse_shsy (network odd_array) (py html_index)
              (py "https://www.shsy.org.cn"))
  = [py "2024/03/05"]
  /\ option_map date
       (list_item (network feed_array) (py "复旦大学")
          (py "https://www.tzb.fudan.edu.cn") item_span_dotted)
     = Some (py "2024.03.05")
  /\ str_eqb (py "2024/03/05") (py "2024-03-05") = false
  /\ str_eqb (py "2024.03.05") (py "2024-03-05") = false.
Proof. vm_compute. repeat split. Qed.

Lemma normalized_dates_on_fixture :
  (no_decimal (py "会议通知 ")
   /\ sjtu_item (network feed_array) (py "https://tzb.sjtu.edu.cn")
        (link_mid_date, document [])
      = Some mid_date_record
   /\ get_text_strip link_mid_date
      = py "会议通知 " ++ py "2024/03/05" ++ py " 统战部工作例会安排")
  /\ date mid_date_record = py "2024-03-05"
  /\ (no_decimal (py "民主党派工作交流会举行 ")
      /\ list_item (network feed_array) (py "上海师范大学")
           (py "https://tzb.shnu.edu.cn") item_text_date
         = Some text_date_record
      /\ find_date_span item_text_date = None
      /\ get_text item_text_date
         = py "民主党派工作交流会举行 " ++ py "2024/03/05" ++ [])
  /\ date text_date_record = py "2024-03-05".
Proof.
  assert (Hpre : no_decimal (py "会议通知 ")) by (apply no_decimal_check; vm_compute; reflexivity).
  assert (Hr : sjtu_item (network feed_array) (py "https://tzb.sjtu.edu.cn")
                 (link_mid_date, document [])
               = Some mid_date_record) by (vm_compute; reflexivity).
  assert (Htext : get_text_strip link_mid_date
                  = py "会议通知 " ++ py "2024/03/05" ++ py " 统战部工作例会安排")
    by (vm_compute; reflexivity).
  assert (Hpre' : no_decimal (py "民主党派工作交流会举行 "))
    by (apply no_decimal_check; vm_compute; reflexivity).
  assert (Hr' : list_item (network feed_array) (py "上海师范大学")
                  (py "https://tzb.shnu.edu.cn") item_text_date
                = Some text_date_record) by (vm_compute; reflexivity).
  assert (Hspan : find_date_span item_text_date = None)
    by (vm_compute; reflexivity).
  assert (Htext' : get_text item_text_date
                   = py "民主党派工作交流会举行 " ++ py "2024/03/05" ++ [])
    by (vm_compute; reflexivity).
  split; [split; [exact Hpre | split; [exact Hr | exact Htext]] |].
  split.
  - destruct (first_date_token_normalized (network feed_array)
                (py "会议通知 ") (py "2024/03/05") (py " 统战部工作例会安排") Hpre)
      as [Hsjtu _].
    destruct (Hsjtu (or_intror eq_refl) (py "https://tzb.sjtu.edu.cn")
                link_mid_date (document []) mid_date_record Hr) as [Hanchor _].
    exact (Hanchor Htext).
  - split; [split; [exact Hpre' | split; [exact Hr' | split; [exact Hspan | exact Htext']]] |].
    destruct (first_date_token_normalized (network feed_array)
                (py "民主党派工作交流会举行 ") (py "2024/03/05") [] Hpre')
      as [_ Hlist].
    exact (Hlist eq_refl (py "上海师范大学") (py "https://tzb.shnu.edu.cn")
             item_text_date text_date_record Hr' Hspan Htext').
Defined.

(** ** The feed *)




(** The feed fixture with a title of two characters, through the whole
    extractor. *)
Example spec_feed_fixture_with_longer_title :
  parse_shsy (network spec_array_TT) (py html_index) (py "https://www.shsy.org.cn")
  = [mkNews (py "上海市社会主义学院") (py "TT") (py "2024-01-01")
       (py "https://www.shsy.org.cn/detailpage/1.html")].
Proof. vm_compute. reflexivity. Qed.

(** ** Urls that are not absolute *)



(** ** Examples *)

Example is_valid_news_examples :
  is_valid_news (py "统战部召开专题工作会议")
    (py "https://www.tzb.fudan.edu.cn/2024/0305/c1a2/page.htm") (py "2024-03-05")
  = true
  /\ is_valid_news (py "上海统一战线") (py "https://x/c1/a.htm") (py "2024-03-05")
     = false
  /\ is_valid_news (py "民主党派工作会") (py "https://x/c1/a.htm") (py "2024-03-05")
     = false
  /\ is_valid_news (py "统战部召开专题工作会议") (py "https://x/bmgk/list.htm")
       (py "2024-03-05")
     = false
  /\ is_valid_news (py "统战部召开专题工作会议") (py "https://x/c1/a.htm") []
     = false.
Proof. vm_compute. repeat split. Qed.


(** Each extractor on a page with one news item and one navigation link
    returns the news item alone. *)
Example one_news_item_per_page :
  map title (parse_fudan (network feed_array) (py html_span_dash)
               (py "https://www.tzb.fudan.edu.cn"))
  = [py "统战部召开专题工作会议"]
  /\ map title (parse_shnu (network feed_array) (py html_text_date)
                  (py "https://tzb.shnu.edu.cn"))
     = [py "民主党派工作交流会举行"]
  /\ map title (parse_sjtu (network feed_array) (py html_posts)
                  (py "https://tzb.sjtu.edu.cn"))
     = [py "统战部举行新年座谈会"; py "无党派人士建言献策活动"].
Proof. vm_compute. repeat split. Qed.
(** ** Sources *)

Lemma sjtu_item_source (E : Env) (base_url : str) (lp : node * node)
    (r : NewsRecord) :
  sjtu_item E base_url lp = Some r -> source r = py "上海交通大学".
Proof.
  unfold sjtu_item. destruct lp as [link parent].
  destruct (urljoin E base_url _); [| discriminate].
  destruct (sjtu_title_date link parent) as [title0 date_text].
  destruct (_ && _); [| discriminate].
  intros H. now injection H as <-.
Qed.

Lemma parse_sjtu_source (E : Env) (html base_url : str) (r : NewsRecord) :
  In r (parse_sjtu E html base_url) -> source r = py "上海交通大学".
Proof.
  unfold parse_sjtu. intros H. apply collect_In in H.
  destruct H as (lp & _ & H). now apply sjtu_item_source in H.
Qed.

Lemma shsy_item_source (E : Env) (item : json) (r : NewsRecord) :
  shsy_item E item = Some r -> source r = py "上海市社会主义学院".
Proof.
  unfold shsy_item.
  destruct (shsy_field (py "messagetitle") item); [| discriminate].
  destruct (shsy_field (py "messagedate") item); [| discriminate].
  destruct (shsy_field (py "messageurl") item) as [m |]; [| discriminate].
  destruct (shsy_url E m); [| discriminate].
  destruct (_ && _); [| discriminate].
  intros H. now injection H as <-.
Qed.

Lemma parse_shsy_items (E : Env) (html base_url : str) (r : NewsRecord) :
  In r (parse_shsy E html base_url) -> exists item, shsy_item E item = Some r.
Proof.
  unfold parse_shsy.
  destruct (requests_get E shsy_json_url) as [response |]; [| contradiction].
  destruct (response_text E response _) as [js |]; [| contradiction].
  destruct (search_group1 re_gzdt js) as [json_str |]; [| contradiction].
  destruct (json_loads E json_str) as [[| | | | data |] |]; try contradiction.
  intros H. apply collect_In in H. destruct H as (item & _ & H). eauto.
Qed.

Lemma parse_shsy_source (E : Env) (html base_url : str) (r : NewsRecord) :
  In r (parse_shsy E html base_url) -> source r = py "上海市社会主义学院".
Proof.
  intros H. apply parse_shsy_items in H. destruct H as [item H].
  now apply shsy_item_source in H.
Qed.

(** The source every parser of [PARSERS] writes into its records. *)
Lemma parser_source (E : Env) (key : str) (parse : parser) (html base_url : str)
    (r : NewsRecord) :
  assoc key PARSERS = Some parse ->
  In r (parse E html base_url) ->
  (key = py "fudan" /\ source r = py "复旦大学")
  \/ (key = py "sjtu" /\ source r = py "上海交通大学")
  \/ (key = py "tongji" /\ source r = py "同济大学")
  \/ (key = py "ecnu" /\ source r = py "华东师范大学")
  \/ (key = py "shnu" /\ source r = py "上海师范大学")
  \/ (key = py "shsy" /\ source r = py "上海市社会主义学院").
Proof.
  unfold PARSERS. cbn [assoc].
  destruct (str_eqb key (py "fudan")) eqn:K1.
  { intros H Hr. injection H as <-. apply str_eqb_eq in K1.
    apply parse_list_site_record in Hr. tauto. }
  destruct (str_eqb key (py "sjtu")) eqn:K2.
  { intros H Hr. injection H as <-. apply str_eqb_eq in K2.
    apply parse_sjtu_source in Hr. tauto. }
  destruct (str_eqb key (py "tongji")) eqn:K3.
  { intros H Hr. injection H as <-. apply str_eqb_eq in K3.
    apply parse_list_site_record in Hr. tauto. }
  destruct (str_eqb key (py "ecnu")) eqn:K4.
  { intros H Hr. injection H as <-. apply str_eqb_eq in K4.
    apply parse_list_site_record in Hr. tauto. }
  destruct (str_eqb key (py "shnu")) eqn:K5.
  { intros H Hr. injection H as <-. apply str_eqb_eq in K5.
    apply parse_list_site_record in Hr. tauto. }
  destruct (str_eqb key (py "shsy")) eqn:K6; [| discriminate].
  intros H Hr. injection H as <-. apply str_eqb_eq in K6.
  apply parse_shsy_source in Hr. tauto.
Qed.

Lemma extractor_output_parser (E : Env) (nc : str * Config) (r : NewsRecord) :
  In r (extractor_output E nc) ->
  exists html parse,
    assoc (cfg_parser (snd nc)) PARSERS = Some parse
    /\ In r (parse E html (cfg_base_url (snd nc))).
Proof.
  unfold extractor_output.
  destruct (fetch_page E _) as [[html |] |]; try contradiction.
  destruct (assoc (cfg_parser (snd nc)) PARSERS) as [parse |];
    [| contradiction].
  intros H. eauto.
Qed.

(** The records a configured site contributes carry the name under which the
    site is configured: the source written in each parser is the key of the
    site that names the parser in [UNIVERSITIES]. *)
Theorem configured_site_names_its_records (E : Env) (nc : str * Config)
    (r : NewsRecord) :
  In nc UNIVERSITIES ->
  In r (extractor_output E nc) ->
  source r = fst nc.
Proof.
  intros Hnc Hr. apply extractor_output_parser in Hr.
  destruct Hr as (html & parse & Hp & Hr).
  pose proof (parser_source E _ parse html _ r Hp Hr) as Hs.
  destruct Hnc as [<- | [<- | [<- | [<- | [<- | [<- | []]]]]]];
    cbn [fst snd cfg_parser] in *;
    destruct Hs as [[K S] | [[K S] | [[K S] | [[K S] | [[K S] | [K S]]]]]];
    try exact S;
    apply str_eqb_eq in K; vm_compute in K; discriminate.
Qed.

Lemma configured_site_on_fixture :
  In (py "复旦大学",
      mkConfig (py "https://www.tzb.fudan.edu.cn/20423/list.htm")
               (py "https://www.tzb.fudan.edu.cn") (py "fudan")) UNIVERSITIES
  /\ In fudan_record
       (extractor_output (network feed_array)
          (py "复旦大学",
           mkConfig (py "https://www.tzb.fudan.edu.cn/20423/list.htm")
                    (py "https://www.tzb.fudan.edu.cn") (py "fudan")))
  /\ source fudan_record
     = fst (py "复旦大学",
            mkConfig (py "https://www.tzb.fudan.edu.cn/20423/list.htm")
                     (py "https://www.tzb.fudan.edu.cn") (py "fudan")).
Proof.
  assert (H1 : In (py "复旦大学",
                   mkConfig (py "https://www.tzb.fudan.edu.cn/20423/list.htm")
                            (py "https://www.tzb.fudan.edu.cn") (py "fudan"))
                 UNIVERSITIES) by (left; reflexivity).
  assert (H2 : In fudan_record
                 (extractor_output (network feed_array)
                    (py "复旦大学",
                     mkConfig (py "https://www.tzb.fudan.edu.cn/20423/list.htm")
                              (py "https://www.tzb.fudan.edu.cn") (py "fudan"))))
    by (vm_compute; left; reflexivity).
  split; [exact H1 |]. split; [exact H2 |].
  exact (configured_site_names_its_records (network feed_array) _ fudan_record
           H1 H2).
Defined.
(** ** One site, case by case *)



(** ** The source tags of the table *)


(** ** The statistics *)

Lemma assoc_dict_set {V : Type} (s key : str) (v : V) (d : list (str * V)) :
  assoc s (dict_set key v d) = if str_eqb s key then Some v else assoc s d.
Proof.
  induction d as [|[k x] d IH]; simpl.
  - reflexivity.
  - destruct (str_eqb key k) eqn:Hk; simpl.
    + apply str_eqb_eq in Hk. subst k. now destruct (str_eqb s key).
    + rewrite IH. destruct (str_eqb s k) eqn:Hsk; [| reflexivity].
      apply str_eqb_eq in Hsk. subst k.
      destruct (str_eqb s key) eqn:Hsk'; [| reflexivity].
      apply str_eqb_eq in Hsk'. subst key.
      now rewrite str_eqb_refl in Hk.
Qed.

Lemma dict_set_keys {V : Type} (key : str) (v : V) (d : list (str * V)) :
  map fst (dict_set key v d)
  = if str_in key (map fst d) then map fst d else map fst d ++ [key].
Proof.
  induction d as [|[k x] d IH]; simpl; [reflexivity |].
  destruct (str_eqb key k); simpl; [reflexivity |].
  rewrite IH. unfold str_in. now destruct (existsb _ _).
Qed.

Lemma dict_set_sum (key : str) (v : nat) (d : list (str * nat)) :
  (list_sum (map snd (dict_set key v d)) + dict_get0 key d
   = list_sum (map snd d) + v)%nat.
Proof.
  unfold dict_get0. induction d as [|[k x] d IH]; simpl.
  - lia.
  - destruct (str_eqb key k); simpl; lia.
Qed.

Lemma count_source_get (s : str) (d : list (str * nat)) (item : NewsRecord) :
  dict_get0 s (count_source d item)
  = (dict_get0 s d + if str_eqb s (source item) then 1 else 0)%nat.
Proof.
  unfold count_source, dict_get0 at 1. rewrite assoc_dict_set.
  destruct (str_eqb s (source item)) eqn:Hs.
  - apply str_eqb_eq in Hs. now subst.
  - fold (dict_get0 s d). lia.
Qed.

Lemma fold_count_get (s : str) (news : list NewsRecord) (d : list (str * nat)) :
  dict_get0 s (fold_left count_source news d)
  = (dict_get0 s d + count_of_source s news)%nat.
Proof.
  revert d; induction news as [|item news IH]; intros d; simpl.
  - unfold count_of_source. simpl. lia.
  - rewrite IH, count_source_get. unfold count_of_source. simpl.
    destruct (str_eqb s (source item)); simpl; lia.
Qed.

Lemma fold_count_sum (news : list NewsRecord) (d : list (str * nat)) :
  list_sum (map snd (fold_left count_source news d))
  = (list_sum (map snd d) + length news)%nat.
Proof.
  revert d; induction news as [|item news IH]; intros d; simpl; [lia |].
  rewrite IH. unfold count_source.
  pose proof (dict_set_sum (source item) (dict_get0 (source item) d + 1) d).
  lia.
Qed.

Lemma fold_count_keys (news : list NewsRecord) (d : list (str * nat)) :
  NoDup (map fst d) ->
  NoDup (map fst (fold_left count_source news d))
  /\ forall k, In k (map fst (fold_left count_source news d)) ->
               In k (map fst d) \/ In k (map source news).
Proof.
  revert d; induction news as [|item news IH]; intros d Hd; simpl.
  - auto.
  - assert (Hstep : NoDup (map fst (count_source d item))
                    /\ forall k, In k (map fst (count_source d item)) ->
                                 In k (map fst d) \/ k = source item).
    { unfold count_source. rewrite dict_set_keys.
      destruct (str_in (source item) (map fst d)) eqn:Hin.
      - auto.
      - split.
        + apply NoDup_app; [exact Hd | repeat constructor; intros [] |].
          intros x Hx [<- | []]. apply str_in_In in Hx. congruence.
        + intros k Hk. apply in_app_or in Hk.
          destruct Hk as [Hk | [<- | []]]; auto. }
    destruct Hstep as [Hnd Hkeys].
    destruct (IH _ Hnd) as [Hnd' Hkeys']. split; [exact Hnd' |].
    intros k Hk. apply Hkeys' in Hk. destruct Hk as [Hk | Hk]; [| auto].
    apply Hkeys in Hk. destruct Hk as [Hk | ->]; auto.
Qed.

Lemma assoc_positive (news : list NewsRecord) (d : list (str * nat)) (s : str)
    (n : nat) :
  (forall k m, assoc k d = Some m -> (1 <= m)%nat) ->
  assoc s (fold_left count_source news d) = Some n -> (1 <= n)%nat.
Proof.
  revert d; induction news as [|item news IH]; intros d Hd; simpl.
  - apply Hd.
  - apply IH. intros k m. unfold count_source. rewrite assoc_dict_set.
    destruct (str_eqb k (source item)).
    + intros H. injection H as <-. lia.
    + apply Hd.
Qed.

(** The loop of the statistics counts right: a source has as its entry the
    number of records of that source, and no entry when there is none; no
    source is entered twice; and the entries add up to the number of records. *)
Theorem source_counts_are_the_counts (news : list NewsRecord) (s : str) :
  dict_get0 s (source_counts news) = count_of_source s news
  /\ (assoc s (source_counts news) = None <-> count_of_source s news = 0%nat)
  /\ NoDup (map fst (source_counts news))
  /\ list_sum (map snd (source_counts news)) = length news.
Proof.
  unfold source_counts.
  pose proof (fold_count_get s news []) as Hget. simpl in Hget.
  split; [exact Hget |]. split; [| split].
  - split.
    + intros Hnone. rewrite <- Hget. unfold dict_get0. now rewrite Hnone.
    + intros Hzero. destruct (assoc s (fold_left count_source news [])) as [n |] eqn:Ha;
        [| reflexivity].
      assert (1 <= n)%nat.
      { apply (assoc_positive news [] s n); [| exact Ha].
        intros k m Hk. discriminate. }
      unfold dict_get0 in Hget. rewrite Ha in Hget. lia.
  - apply (fold_count_keys news []). constructor.
  - now rewrite fold_count_sum.
Qed.

Lemma six_sources :
  NoDup (map fst UNIVERSITIES) /\ length (map fst UNIVERSITIES) = 6%nat.
Proof.
  split; [| reflexivity]. apply nodup_strs_NoDup. vm_compute. reflexivity.
Qed.

(** The statistics of a result of [scrape_all_universities] show at most six
    sources, each of them the name of a configured site. *)
Theorem at_most_six_sources_counted (E : Env) (completed : list (str * Config)) :
  exists news errors,
    scrape_all_universities E completed = Ok (news, errors)
    /\ (length (source_counts news) <= 6)%nat
    /\ forall s, In s (map fst (source_counts news)) ->
                 In s (map fst UNIVERSITIES).
Proof.
  rewrite scrape_all_returns. do 2 eexists. split; [reflexivity |].
  set (news := sort_desc parse_date (flat_map (extractor_output E) completed)).
  assert (Hin : forall s, In s (map fst (source_counts news)) ->
                          In s (map fst UNIVERSITIES)).
  { intros s Hs.
    destruct (fold_count_keys news [] (NoDup_nil _)) as [_ Hkeys].
    apply Hkeys in Hs. destruct Hs as [[] | Hs].
    apply in_map_iff in Hs. destruct Hs as (r & <- & Hr).
    apply (Permutation_in _ (sort_desc_perm _ _)) in Hr.
    apply in_flat_map in Hr. destruct Hr as (nc & _ & Hr).
    apply extractor_output_parser in Hr.
    destruct Hr as (html & parse & Hp & Hr).
    pose proof (parser_source E _ parse html _ r Hp Hr) as Hsrc.
    destruct Hsrc as [[_ S] | [[_ S] | [[_ S] | [[_ S] | [[_ S] | [_ S]]]]]];
      rewrite S; cbn [UNIVERSITIES map fst In]; tauto. }
  split; [| exact Hin].
  destruct six_sources as [Hnd Hlen]. rewrite <- Hlen.
  rewrite <- (length_map fst (source_counts news)).
  apply NoDup_incl_length; [| exact Hin].
  apply (fold_count_keys news []). constructor.
Qed.
(** ** Stripped strings *)

Lemma lstrip_head (s : str) :
  match lstrip s with
  | [] => True
  | c :: _ => isspace c = false
  end.
Proof.
  induction s as [|c s IH]; simpl; [exact I |].
  destruct (isspace c) eqn:Hc; [exact IH | exact Hc].
Qed.

Lemma lstrip_snoc (l : str) (c : char) :
  isspace c = false -> lstrip (l ++ [c]) = lstrip l ++ [c].
Proof.
  intros Hc. induction l as [|a l IH]; simpl.
  - now rewrite Hc.
  - destruct (isspace a); [exact IH | reflexivity].
Qed.

Lemma rstrip_cons (c : char) (t : str) :
  isspace c = false -> rstrip (c :: t) = c :: rstrip t.
Proof.
  intros Hc. unfold rstrip. simpl.
  rewrite lstrip_snoc by exact Hc. rewrite rev_app_distr. reflexivity.
Qed.

Lemma rstrip_idem (s : str) : rstrip (rstrip s) = rstrip s.
Proof. unfold rstrip. now rewrite rev_involutive, lstrip_idem. Qed.

(** What [strip] returns has no white space at either end. *)
Lemma strip_is_stripped (s : str) : is_stripped (strip s).
Proof.
  unfold is_stripped, strip. split; [| apply rstrip_idem].
  pose proof (lstrip_head s) as Hh. destruct (lstrip s) as [|c t]; [reflexivity |].
  rewrite rstrip_cons by exact Hh. simpl. now rewrite Hh.
Qed.

(** ** The dates of the path-pattern site *)

Lemma dashed_token (y : str) (s1 : char) (mo : str) (s2 : char) (da : str) :
  date_token is_sep3 y s1 mo s2 da -> date_token is_dash y 45 mo 45 da.
Proof.
  intros (Hy & _ & Hm & _ & Hd). repeat split; try apply Hy; try apply Hm;
    try apply Hd.
Qed.

Lemma sjtu_title_date_shape (link parent : node) :
  snd (sjtu_title_date link parent) = []
  \/ exists y mo da,
       snd (sjtu_title_date link parent) = y ++ 45 :: mo ++ 45 :: da
       /\ date_token is_dash y 45 mo 45 da.
Proof.
  assert (Hshape : forall tok,
            is_date_token is_sep3 tok ->
            exists y mo da,
              dashes tok = y ++ 45 :: mo ++ 45 :: da
              /\ date_token is_dash y 45 mo 45 da).
  { intros tok (y & s1 & mo & s2 & da & -> & Htok).
    exists y, mo, da. split; [now apply dashes_token | now apply dashed_token with s1 s2]. }
  unfold sjtu_title_date.
  destruct (search_group1 re_date3 (get_text_strip link)) as [d |] eqn:H1.
  - right. apply (search_group1_sound is_sep3) in H1. now apply Hshape.
  - destruct (search_group1 re_date3 (get_text parent)) as [d |] eqn:H2.
    + right. apply (search_group1_sound is_sep3) in H2. now apply Hshape.
    + now left.
Qed.

(** Every record of [parse_sjtu] has a date of four digits, "-", one or two
    digits, "-", one or two digits, whatever separators the page used; a
    title without white space at its ends; and a url made by [urljoin] from a
    reference that has "/post/" in it. *)
Theorem sjtu_records_are_dated_posts (E : Env) (html base_url : str)
    (r : NewsRecord) :
  In r (parse_sjtu E html base_url) ->
  (exists y mo da,
     date r = y ++ 45 :: mo ++ 45 :: da /\ date_token is_dash y 45 mo 45 da)
  /\ is_stripped (title r)
  /\ exists href,
       contains (py "/post/") href = true
       /\ urljoin E base_url href = Ok (url r).
Proof.
  unfold parse_sjtu. intros H. apply collect_In in H.
  destruct H as ([link parent] & Hlp & H).
  pose proof (sjtu_item_record E base_url _ r H) as (_ & Hdate & _).
  pose proof (sjtu_item_date E base_url _ r H) as [Hd Ht]. cbn [fst snd] in Hd, Ht.
  split; [| split].
  - destruct (sjtu_title_date_shape link parent) as [Hnil | Hshape].
    + rewrite <- Hd in Hnil. contradiction.
    + now rewrite Hd.
  - rewrite Ht. apply strip_is_stripped.
  - unfold sjtu_links in Hlp. apply filter_In in Hlp. destruct Hlp as [_ Hf].
    cbn [fst] in Hf. apply andb_true_iff in Hf. destruct Hf as [_ Hf].
    unfold sjtu_item in H.
    destruct (attr_get (py "href") link) as [href |]; [| discriminate].
    apply andb_true_iff in Hf. destruct Hf as [_ Hf].
    exists href. split; [exact Hf |].
    destruct (urljoin E base_url href) as [u |]; [| discriminate].
    destruct (sjtu_title_date link parent) as [title0 date_text].
    destruct (_ && _); [| discriminate].
    injection H as <-. reflexivity.
Qed.

Lemma sjtu_records_on_fixture :
  In mid_date_record
    (parse_sjtu
       (fixture_env [] [(py "<a href='/post/103'>x</a>",
                         document [link_mid_date])] [])
       (py "<a href='/post/103'>x</a>") (py "https://tzb.sjtu.edu.cn"))
  /\ (exists y mo da,
        date mid_date_record = y ++ 45 :: mo ++ 45 :: da
        /\ date_token is_dash y 45 mo 45 da).
Proof.
  assert (H : In mid_date_record
                (parse_sjtu
                   (fixture_env [] [(py "<a href='/post/103'>x</a>",
                                     document [link_mid_date])] [])
                   (py "<a href='/post/103'>x</a>")
                   (py "https://tzb.sjtu.edu.cn")))
    by (vm_compute; left; reflexivity).
  split; [exact H |].
  exact (proj1 (sjtu_records_are_dated_posts _ _ _ _ H)).
Defined.

(** ** The dates of the list sites *)





(** ** Chronological order *)

Lemma four_digits_value (y : N) :
  y < 10000 ->
  y = 1000 * (y / 1000) + 100 * ((y / 100) mod 10) + 10 * ((y / 10) mod 10)
      + y mod 10
  /\ y / 1000 < 10 /\ (y / 100) mod 10 < 10 /\ (y / 10) mod 10 < 10
  /\ y mod 10 < 10.
Proof. intros Hy. zify. Z.to_euclidean_division_equations. lia. Qed.

Lemma two_digits_value (m : N) :
  m < 100 -> m = 10 * (m / 10) + m mod 10 /\ m / 10 < 10 /\ m mod 10 < 10.
Proof. intros Hm. zify. Z.to_euclidean_division_equations. lia. Qed.

(** On dates written with four, two and two digits the order of the strings
    is the order of the calendar. *)
Lemma padded_date_ltb (y m d y' m' d' : N) :
  y < 10000 -> m < 100 -> d < 100 -> y' < 10000 -> m' < 100 -> d' < 100 ->
  (str_ltb (padded_date 45 y m d) (padded_date 45 y' m' d') = true
   <-> day_rank y m d < day_rank y' m' d').
Proof.
  intros Hy Hm Hd Hy' Hm' Hd'. unfold day_rank.
  destruct (four_digits_value y Hy) as (Ey & Y1 & Y2 & Y3 & Y4).
  destruct (four_digits_value y' Hy') as (Ey' & Y1' & Y2' & Y3' & Y4').
  destruct (two_digits_value m Hm) as (Em & M1 & M2).
  destruct (two_digits_value m' Hm') as (Em' & M1' & M2').
  destruct (two_digits_value d Hd) as (Ed & D1 & D2).
  destruct (two_digits_value d' Hd') as (Ed' & D1' & D2').
  unfold padded_date, four_digits, two_digits. cbn [app str_ltb].
  revert Ey Y1 Y2 Y3 Y4 Ey' Y1' Y2' Y3' Y4' Em M1 M2 Em' M1' M2'
    Ed D1 D2 Ed' D1' D2'.
  generalize (y / 1000) ((y / 100) mod 10) ((y / 10) mod 10) (y mod 10)
    (y' / 1000) ((y' / 100) mod 10) ((y' / 10) mod 10) (y' mod 10)
    (m / 10) (m mod 10) (m' / 10) (m' mod 10)
    (d / 10) (d mod 10) (d' / 10) (d' mod 10).
  intros a1 a2 a3 a4 b1 b2 b3 b4 p1 p2 q1 q2 u1 u2 v1 v2.
  intros.
  rewrite !andb_false_r, !orb_false_r.
  repeat first [rewrite orb_true_iff | rewrite andb_true_iff
                | rewrite N.ltb_lt | rewrite N.eqb_eq].
  lia.
Qed.

Lemma digit_is_no_slash (n : N) : (48 + n =? 47) = false.
Proof. apply N.eqb_neq. lia. Qed.

(** The sort key of a padded date, written with "-" or with "/". *)
Lemma parse_date_padded (r : NewsRecord) (sep : char) (y m d : N) :
  sep = 45 \/ sep = 47 ->
  date r = padded_date sep y m d ->
  parse_date r = padded_date 45 y m d.
Proof.
  intros Hsep Hdate. unfold parse_date. rewrite Hdate.
  unfold padded_date, four_digits, two_digits.
  cbn [app truthy replace_char map]. rewrite !digit_is_no_slash.
  destruct Hsep as [-> | ->]; reflexivity.
Qed.

(** Newest first: of two records returned by [scrape_all_universities] whose
    dates are written with four digits for the year and two for the month and
    the day, with "-" or "/" between them, the earlier in the list is not
    older than the later. *)
Theorem newest_first_among_padded_dates (E : Env)
    (completed : list (str * Config)) (news : list NewsRecord)
    (errors : list str) (l1 l2 l3 : list NewsRecord) (a b : NewsRecord)
    (sa sb : char) (ya ma da yb mb db : N) :
  scrape_all_universities E completed = Ok (news, errors) ->
  news = l1 ++ a :: l2 ++ b :: l3 ->
  date a = padded_date sa ya ma da -> sa = 45 \/ sa = 47 ->
  date b = padded_date sb yb mb db -> sb = 45 \/ sb = 47 ->
  ya < 10000 /\ ma < 100 /\ da < 100 ->
  yb < 10000 /\ mb < 100 /\ db < 100 ->
  day_rank yb mb db <= day_rank ya ma da.
Proof.
  intros Hrun Hnews Ha Hsa Hb Hsb (Hya & Hma & Hda) (Hyb & Hmb & Hdb).
  rewrite scrape_all_returns in Hrun. injection Hrun as Hsorted _.
  pose proof (sort_desc_sorted parse_date
                (flat_map (extractor_output E) completed)) as Hs.
  rewrite Hsorted, Hnews in Hs.
  apply sorted_before in Hs. unfold key_ge, str_leb in Hs.
  rewrite (parse_date_padded a sa ya ma da Hsa Ha) in Hs.
  rewrite (parse_date_padded b sb yb mb db Hsb Hb) in Hs.
  apply negb_true_iff in Hs.
  apply N.le_ngt. intros Hlt.
  apply (padded_date_ltb ya ma da yb mb db Hya Hma Hda Hyb Hmb Hdb) in Hlt.
  congruence.
Qed.

Lemma newest_first_on_fixture :
  (scrape_all_universities (network feed_array) UNIVERSITIES
   = Ok (fixture_news,
         errors_of (scrape_all_universities (network feed_array) UNIVERSITIES))
   /\ fixture_news
      = firstn 1 fixture_news
        ++ fudan_record :: firstn 2 (skipn 2 fixture_news)
        ++ ecnu_record :: skipn 5 fixture_news
   /\ date fudan_record = padded_date 45 2024 3 5
   /\ date ecnu_record = padded_date 47 2024 3 4)
  /\ day_rank 2024 3 4 <= day_rank 2024 3 5.
Proof.
  assert (H1 : scrape_all_universities (network feed_array) UNIVERSITIES
               = Ok (fixture_news,
                     errors_of (scrape_all_universities (network feed_array)
                                  UNIVERSITIES)))
    by (vm_compute; reflexivity).
  assert (H2 : fixture_news
               = firstn 1 fixture_news
                 ++ fudan_record :: firstn 2 (skipn 2 fixture_news)
                 ++ ecnu_record :: skipn 5 fixture_news)
    by (vm_compute; reflexivity).
  assert (H3 : date fudan_record = padded_date 45 2024 3 5)
    by (vm_compute; reflexivity).
  assert (H4 : date ecnu_record = padded_date 47 2024 3 4)
    by (vm_compute; reflexivity).
  split; [split; [exact H1 | split; [exact H2 | split; [exact H3 | exact H4]]] |].
  apply (newest_first_among_padded_dates (network feed_array) UNIVERSITIES
           fixture_news _ _ _ _ fudan_record ecnu_record 45 47
           2024 3 5 2024 3 4 H1 H2 H3 (or_introl eq_refl) H4 (or_intror eq_refl));
    repeat split; reflexivity.
Defined.

(** Records with the same sort key come in the order in which their sites
    complete and, for one site, in the order of its page: the sort leaves
    them as the loop over the results appended them. *)
Theorem equal_keys_keep_arrival_order (E : Env)
    (completed : list (str * Config)) (k : str) :
  exists news errors,
    scrape_all_universities E completed = Ok (news, errors)
    /\ filter (fun r => str_eqb (parse_date r) k) news
       = flat_map
           (fun nc => filter (fun r => str_eqb (parse_date r) k)
                        (extractor_output E nc))
           completed.
Proof.
  rewrite scrape_all_returns. do 2 eexists. split; [reflexivity |].
  rewrite sort_desc_stable.
  induction completed as [|nc completed IH]; simpl; [reflexivity |].
  now rewrite filter_app, IH.
Qed.
(** ** Feed entries *)

Lemma shsy_field_some (key : str) (item : json) (v : str) :
  shsy_field key item = Some v ->
  exists members,
    item = JObj members
    /\ ((assoc key members = None /\ v = [])
        \/ exists s, assoc key members = Some (JStr s) /\ v = strip s).
Proof.
  unfold shsy_field. destruct item as [| | | | |members]; try discriminate.
  intros H. exists members. split; [reflexivity |].
  destruct (assoc key members) as [[| | |s| |] |]; try discriminate.
  - injection H as <-. right. eauto.
  - injection H as <-. left. auto.
Qed.

(** The defaults of [item.get] let no entry through: a record of the feed
    comes from a JSON object that has all three of "messagetitle",
    "messagedate" and "messageurl" as strings, its title and date are these
    strings stripped, and the stripped url is not empty. *)
Theorem feed_record_needs_all_fields (E : Env) (html base_url : str)
    (r : NewsRecord) :
  In r (parse_shsy E html base_url) ->
  exists members t d m,
    assoc (py "messagetitle") members = Some (JStr t)
    /\ assoc (py "messagedate") members = Some (JStr d)
    /\ assoc (py "messageurl") members = Some (JStr m)
    /\ shsy_item E (JObj members) = Some r
    /\ title r = strip t /\ date r = strip d /\ strip m <> []
    /\ is_stripped (title r) /\ is_stripped (date r).
Proof.
  intros H. apply parse_shsy_items in H. destruct H as [item H].
  pose proof H as Hitem. unfold shsy_item in H.
  destruct (shsy_field (py "messagetitle") item) as [tv |] eqn:Ht;
    [| discriminate].
  destruct (shsy_field (py "messagedate") item) as [dv |] eqn:Hd;
    [| discriminate].
  destruct (shsy_field (py "messageurl") item) as [mv |] eqn:Hm;
    [| discriminate].
  destruct (shsy_url E mv) as [u |] eqn:Hu; [| discriminate].
  destruct (truthy tv && (2 <=? length tv)%nat && truthy dv) eqn:Hg;
    [| discriminate].
  injection H as <-. cbn [title date].
  apply andb_true_iff in Hg. destruct Hg as [Hg Hdv].
  apply andb_true_iff in Hg. destruct Hg as [Htv _].
  apply shsy_field_some in Ht, Hd, Hm.
  destruct Ht as (members & -> & Ht).
  destruct Hd as (members' & Heq & Hd). injection Heq as <-.
  destruct Hm as (members' & Heq & Hm). injection Heq as <-.
  destruct Ht as [[_ ->] | (t & Ht & ->)]; [discriminate |].
  destruct Hd as [[_ ->] | (d & Hd & ->)]; [discriminate |].
  destruct Hm as [[_ ->] | (m & Hm & ->)]; [discriminate |].
  exists members, t, d, m.
  repeat split; auto; try apply strip_is_stripped.
  intros Hnil. rewrite Hnil in Hu. discriminate.
Qed.

Lemma feed_record_on_fixture :
  In (mkNews (py "上海市社会主义学院") (py "TT") (py "2024-01-01")
        (py "https://www.shsy.org.cn/detailpage/1.html"))
    (parse_shsy (network spec_array_TT) (py html_index)
       (py "https://www.shsy.org.cn"))
  /\ exists members t d m,
       assoc (py "messagetitle") members = Some (JStr t)
       /\ assoc (py "messagedate") members = Some (JStr d)
       /\ assoc (py "messageurl") members = Some (JStr m)
       /\ shsy_item (network spec_array_TT) (JObj members)
          = Some (mkNews (py "上海市社会主义学院") (py "TT") (py "2024-01-01")
                    (py "https://www.shsy.org.cn/detailpage/1.html"))
       /\ py "TT" = strip t /\ py "2024-01-01" = strip d /\ strip m <> []
       /\ is_stripped (py "TT") /\ is_stripped (py "2024-01-01").
Proof.
  assert (H : In (mkNews (py "上海市社会主义学院") (py "TT") (py "2024-01-01")
                    (py "https://www.shsy.org.cn/detailpage/1.html"))
                (parse_shsy (network spec_array_TT) (py html_index)
                   (py "https://www.shsy.org.cn")))
    by (vm_compute; left; reflexivity).
  split; [exact H |].
  exact (feed_record_needs_all_fields _ _ _ _ H).
Defined.



(** ** Long titles *)

Lemma str_eqb_length (a b : str) : str_eqb a b = true -> length a = length b.
Proof. intros H. apply str_eqb_eq in H. now subst. Qed.

Lemma nav_keywords_short (kw : str) :
  In kw nav_keywords -> (length kw <= 6)%nat.
Proof.
  assert (H : forallb (fun kw => (length kw <=? 6)%nat) nav_keywords = true)
    by (vm_compute; reflexivity).
  rewrite forallb_forall in H. intros Hkw. now apply Nat.leb_le, H.
Qed.

(** The navigation list only bears on short titles: for a title of ten
    characters or more, [is_valid_news] depends on the url and the date
    alone. *)
Theorem long_titles_pass_the_navigation_list (title url date_text : str) :
  (10 <= length title)%nat ->
  is_valid_news title url date_text
  = negb (contains (py "list.htm") url && negb (contains (py "/c") url))
    && truthy date_text.
Proof.
  intros Hlen. unfold is_valid_news.
  destruct (length title <? 6)%nat eqn:H6; [apply Nat.ltb_lt in H6; lia |].
  destruct (str_in title nav_keywords) eqn:Hin.
  { apply str_in_In in Hin. apply nav_keywords_short in Hin. lia. }
  destruct (existsb _ nav_keywords) eqn:Hex.
  { apply existsb_exists in Hex. destruct Hex as (kw & Hkw & Hc).
    apply orb_true_iff in Hc. destruct Hc as [Hc | Hc].
    - apply str_eqb_length in Hc. apply nav_keywords_short in Hkw. lia.
    - apply andb_true_iff in Hc. destruct Hc as [Hc _].
      apply Nat.ltb_lt in Hc. lia. }
  destruct (contains (py "list.htm") url && negb (contains (py "/c") url));
    [reflexivity |].
  now destruct date_text.
Qed.

Lemma long_title_on_fixture :
  (10 <= length (py "民主党派工作交流会举行"))%nat
  /\ is_valid_news (py "民主党派工作交流会举行")
       (py "https://tzb.shnu.edu.cn/2024/0302/c5a6/page.htm") (py "2024-03-02")
     = negb (contains (py "list.htm")
               (py "https://tzb.shnu.edu.cn/2024/0302/c5a6/page.htm")
             && negb (contains (py "/c")
                        (py "https://tzb.shnu.edu.cn/2024/0302/c5a6/page.htm")))
       && truthy (py "2024-03-02").
Proof.
  assert (H : (10 <= length (py "民主党派工作交流会举行"))%nat)
    by (vm_compute; lia).
  split; [exact H |].
  exact (long_titles_pass_the_navigation_list _ _ _ H).
Defined.
(** ** Any number of sites down *)





(** ** A date in the middle of an anchor *)

(** In [parse_sjtu] the date is searched anywhere in the text of the anchor
    but removed from its start only: when the first date token of the text
    comes after other characters, none of them a digit, the token gives the
    date and stays in the title. *)
Theorem sjtu_date_inside_title_is_kept (E : Env) (base_url : str)
    (link parent : node) (c : char) (pre y : str) (s1 : char) (mo : str)
    (s2 : char) (da rest : str) :
  get_text_strip link = c :: pre ++ y ++ s1 :: mo ++ s2 :: da ++ rest ->
  no_decimal (c :: pre) ->
  date_token is_sep3 y s1 mo s2 da ->
  token_ends da rest ->
  sjtu_title_date link parent
  = (get_text_strip link, y ++ 45 :: mo ++ 45 :: da)
  /\ forall u,
       urljoin E base_url (href_of link) = Ok u ->
       (6 <= length (strip (get_text_strip link)))%nat ->
       sjtu_item E base_url (link, parent)
       = Some (mkNews (py "上海交通大学") (strip (get_text_strip link))
                 (y ++ 45 :: mo ++ 45 :: da) u).
Proof.
  intros Htext Hpre Htok Hend.
  assert (Htd : sjtu_title_date link parent
                = (get_text_strip link, y ++ 45 :: mo ++ 45 :: da)).
  { unfold sjtu_title_date. rewrite Htext. unfold re_date3.
    change (c :: pre ++ y ++ s1 :: mo ++ s2 :: da ++ rest)
      with ((c :: pre) ++ y ++ s1 :: mo ++ s2 :: da ++ rest).
    rewrite (search_group1_token is_sep3 sep3_no_decimal (c :: pre) y s1 mo s2
               da rest Hpre Htok Hend).
    rewrite dashes_token by exact Htok. f_equal.
    unfold re_sub_start, match_at, re_date3_prefix, date_body.
    cbn [re_match app].
    rewrite rep_fails; [reflexivity |].
    now inversion Hpre. }
  split; [exact Htd |].
  intros u Hu Hlen. unfold sjtu_item. fold (href_of link). rewrite Hu, Htd.
  rewrite (truthy_length _ 5 Hlen).
  apply Nat.leb_le in Hlen. rewrite Hlen.
  destruct y; reflexivity.
Qed.

Lemma sjtu_date_inside_title_on_fixture :
  (get_text_strip link_mid_date
   = 20250 :: py "议通知 " ++ py "2024" ++ 47 :: py "03" ++ 47 :: py "05"
     ++ py " 统战部工作例会安排"
   /\ no_decimal (20250 :: py "议通知 ")
   /\ date_token is_sep3 (py "2024") 47 (py "03") 47 (py "05")
   /\ token_ends (py "05") (py " 统战部工作例会安排"))
  /\ sjtu_title_date link_mid_date (document [])
     = (get_text_strip link_mid_date,
        py "2024" ++ 45 :: py "03" ++ 45 :: py "05").
Proof.
  assert (H1 : get_text_strip link_mid_date
               = 20250 :: py "议通知 " ++ py "2024" ++ 47 :: py "03"
                 ++ 47 :: py "05" ++ py " 统战部工作例会安排")
    by (vm_compute; reflexivity).
  assert (H2 : no_decimal (20250 :: py "议通知 "))
    by (apply no_decimal_check; vm_compute; reflexivity).
  assert (H3 : date_token is_sep3 (py "2024") 47 (py "03") 47 (py "05"))
    by token_parts.
  assert (H4 : token_ends (py "05") (py " 统战部工作例会安排"))
    by (left; reflexivity).
  split; [split; [exact H1 | split; [exact H2 | split; [exact H3 | exact H4]]] |].
  exact (proj1 (sjtu_date_inside_title_is_kept (network feed_array)
                  (py "https://tzb.sjtu.edu.cn") link_mid_date (document [])
                  _ _ _ _ _ _ _ _ H1 H2 H3 H4)).
Defined.
